(** * React performance profiler: the aggregation-and-recommendation pipeline

    A shallow embedding of the pure parts of the three analyzers
    (bundle, re-render, memory) and of the summary calculator, followed
    by the properties of the pipeline.

    Conventions of the embedding.
    - A JavaScript number holding a byte size, a count or a timestamp is
      an integer of [Z] (a count built from a length is a [nat]).  A
      render duration and a mean of durations are IEEE 754 doubles, the
      kernel's [float], with its rounded operations; the mean of the
      heap deltas, taken over integers, is an exact rational of [Q].
    - A field that the code reads through [x || d] or [x?.y] may be
      missing: it is an [option], and the default is written out.
    - [Map] is an insertion-ordered association list; [Array.prototype.sort]
      is the stable sort ECMAScript 2019 prescribes.
    - A [Recommendation] keeps [severity], [category] and [title]; its prose
      fields ([description], [fix], [codeExample], [estimatedImpact]) are
      built with [formatBytes] and [toFixed] and are read by no function
      of the pipeline, so they are left out. *)

From Stdlib Require Import List ZArith QArith Qround String Ascii Bool Lia.
From Stdlib Require Import Permutation Sorted DecimalString.
From Stdlib Require Import PrimFloat FloatOps SpecFloat.
Import ListNotations.

Local Open Scope string_scope.
Local Open Scope list_scope.
Local Open Scope Z_scope.

#[local] Set Warnings "-inexact-float".

(* ================================================================== *)
(** ** JavaScript values and built-ins used by the analyzers *)

Module Js.

  (** [x || 0] on a possibly missing number. *)
Definition orZero (x : option Z) : Z :=
    match x with Some v => v | None => 0 end.

  (** [x || d] on a possibly missing string: the empty string is falsy. *)
Definition orString (x : option string) (d : string) : string :=
    match x with
    | Some s => if String.eqb s "" then d else s
    | None => d
    end.

  (** [x || d] on a possibly missing number: 0 is falsy. *)
Definition orNumber (x : option Z) (d : Z) : Z :=
  match x with
  | Some v => if v =? 0 then d else v
  | None => d
  end.

  (** [x || []] on a possibly missing array: every array is truthy. *)
Definition orNil {A : Type} (x : option (list A)) : list A :=
    match x with Some l => l | None => [] end.

  (** [x || false]. *)
Definition orFalse (x : option bool) : bool :=
    match x with Some b => b | None => false end.

  (** [Number.prototype.toString] on an integer. *)
Definition numberToString (n : Z) : string :=
    NilZero.string_of_int (Z.to_int n).

  (** [String.prototype.endsWith]. *)
Definition endsWith (s suffix : string) : bool :=
    let n := String.length s in
    let m := String.length suffix in
    (m <=? n)%nat && String.eqb (substring (n - m) m s) suffix.

  (** [String.prototype.includes]. *)
Fixpoint includes (s needle : string) : bool :=
    prefix needle s ||
    match s with
    | EmptyString => false
    | String _ rest => includes rest needle
    end.

  (** A length or a count as the double it is in the program; the
    conversion is exact below 2^53, and no array is that long. *)
Fixpoint numberOfPositive (p : positive) : float :=
  match p with
  | xH => 1%float
  | xO q => (2 * numberOfPositive q)%float
  | xI q => (2 * numberOfPositive q + 1)%float
  end.

Definition numberOfNat (n : nat) : float :=
  match Z.of_nat n with
  | Zpos p => numberOfPositive p
  | _ => 0%float
  end.

  (** [Array.prototype.reduce((sum, x) => sum + f(x), 0)]. *)
Definition sumBy {A : Type} (f : A -> Z) (l : list A) : Z :=
    fold_left (fun sum x => sum + f x) l 0.

  (** [Array.prototype.slice(0, n)]. *)
Definition slice0 {A : Type} (n : nat) (l : list A) : list A := firstn n l.

  (** [Array.prototype.sort(cmp)]: [cmp a b <= 0] keeps [a] before [b];
      elements that compare equal keep their order. *)
Section Sort.
Context {A : Type} (cmp : A -> A -> Z).

Fixpoint insert (x : A) (l : list A) : list A :=
      match l with
      | [] => [x]
      | y :: l' => if cmp x y <=? 0 then x :: l else y :: insert x l'
      end.

Definition sort (l : list A) : list A := fold_right insert [] l.
End Sort.

  (** [Map<K, V>]: keys in insertion order, [set] on a present key keeps
      its position; [eqb] is the equality of the keys. *)
Section Map.
Context {K V : Type} (eqb : K -> K -> bool).

Fixpoint get (k : K) (m : list (K * V)) : option V :=
      match m with
      | [] => None
      | (k', v) :: m' => if eqb k k' then Some v else get k m'
      end.

Fixpoint set (k : K) (v : V) (m : list (K * V)) : list (K * V) :=
      match m with
      | [] => [(k, v)]
      | (k', v') :: m' =>
          if eqb k k' then (k, v) :: m' else (k', v') :: set k v m'
      end.
End Map.

  (** [l[i]]: [undefined] outside the array. *)
Definition index {A : Type} (l : list A) (i : Z) : option A :=
    if i <? 0 then None else nth_error l (Z.to_nat i).

  (** The outcome of a call that may dereference [undefined]. *)
Inductive outcome (A : Type) : Type :=
  | Returns (a : A)
  | ThrowsTypeError.
Arguments Returns {A} a.
Arguments ThrowsTypeError {A}.

Definition bind {A B : Type} (x : outcome A) (k : A -> outcome B) : outcome B :=
    match x with
    | Returns a => k a
    | ThrowsTypeError => ThrowsTypeError
    end.

  (** [x.f]: reading a property of [undefined] throws. *)
Definition field {A B : Type} (f : A -> B) (x : option A) : outcome B :=
    match x with
    | Some a => Returns (f a)
    | None => ThrowsTypeError
    end.

  (** A number that may come out of a division. *)
Inductive number : Type :=
  | Finite (q : Q)
  | PosInfinity
  | NegInfinity
  | NaN.

Definition Qltb (a b : Q) : bool :=
    match (a ?= b)%Q with Lt => true | _ => false end.

  (** [a / b] on integers. *)
Definition div (a b : Z) : number :=
    if b =? 0 then
      (if 0 <? a then PosInfinity else if a <? 0 then NegInfinity else NaN)
    else Finite (inject_Z a / inject_Z b)%Q.

  (** [x * k] for a positive constant [k]. *)
Definition scale (x : number) (k : Z) : number :=
    match x with
    | Finite q => Finite (q * inject_Z k)%Q
    | other => other
    end.

  (** [x > k]. *)
Definition gt (x : number) (k : Z) : bool :=
    match x with
    | Finite q => Qltb (inject_Z k) q
    | PosInfinity => true
    | NegInfinity | NaN => false
    end.

End Js.

(* ================================================================== *)
(** ** Shared result types (src/types) *)

Inductive Severity : Type := critical | warning | info.

Definition Severity_eqb (a b : Severity) : bool :=
  match a, b with
  | critical, critical | warning, warning | info, info => true
  | _, _ => false
  end.

Module Recommendation.
Record t : Type := mk {
    severity : Severity;
    category : string;
    title : string
  }.
End Recommendation.

(* ================================================================== *)
(** ** Bundle analyzer *)

(** The statistics object of the bundler, as the analyzer reads it. *)
Module Stats.
Record Asset : Type := mkAsset {
    asset_name : option string;
    asset_size : option Z
  }.

Record Reason : Type := mkReason {
    moduleName : option string
  }.

Record Module_ : Type := mkModule {
    name : option string;
    size : option Z;
    identifier : option string;
    depth : option Z;
    reasons : option (list Reason)
  }.

Inductive ChunkId : Type :=
  | IdNumber (n : Z)
  | IdString (s : string).

Record Chunk : Type := mkChunk {
    id : option ChunkId;
    names : option (list string);
    chunk_size : option Z;
    files : option (list string);
    initial : option bool;
    chunk_modules : option (list Module_);
    parents : option (list ChunkId)
  }.

Record t : Type := mk {
    assets : list Asset;
    chunks : list Chunk;
    modules : option (list Module_)
  }.

Definition idToString (i : ChunkId) : string :=
    match i with
    | IdNumber n => Js.numberToString n
    | IdString s => s
    end.
End Stats.

Module ChunkInfo.
Record t : Type := mk {
    name : string;
    size : Z;
    files : list string;
    modules : nat;
    isInitial : bool;
    parentChunks : list string
  }.
End ChunkInfo.

Module ModuleInfo.
Record t : Type := mk {
    name : string;
    size : Z;
    path : string;
    reasons : list string;
    depth : Z
  }.
End ModuleInfo.

Module DuplicateModule.
Record t : Type := mk {
    name : string;
    instances : nat;
    totalSize : Z;
    locations : list string
  }.
End DuplicateModule.

Module Metrics.
Record t : Type := mk {
    jsSize : Z;
    cssSize : Z;
    imageSize : Z;
    otherSize : Z
  }.
End Metrics.

Module BundleAnalysis.
Record t : Type := mk {
    totalSize : Z;
    chunks : list ChunkInfo.t;
    largeModules : list ModuleInfo.t;
    duplicates : list DuplicateModule.t;
    recommendations : list Recommendation.t;
    metrics : Metrics.t
  }.
End BundleAnalysis.

Module BundleAnalyzer.

  (** [chunk.names?.[0] || chunk.id?.toString() || 'unknown'] and the
      other fields of the chunk summary. *)
Definition chunkInfo (chunk : Stats.Chunk) : ChunkInfo.t :=
    {| ChunkInfo.name :=
         Js.orString (match Stats.names chunk with
                      | Some (n :: _) => Some n
                      | _ => None
                      end)
           (Js.orString (option_map Stats.idToString (Stats.id chunk)) "unknown");
       ChunkInfo.size := Js.orZero (Stats.chunk_size chunk);
       ChunkInfo.files := Js.orNil (Stats.files chunk);
       ChunkInfo.modules :=
         match Stats.chunk_modules chunk with
         | Some ms => List.length ms
         | None => 0%nat
         end;
       ChunkInfo.isInitial := Js.orFalse (Stats.initial chunk);
       ChunkInfo.parentChunks :=
         Js.orNil (option_map (map Stats.idToString) (Stats.parents chunk)) |}.

Definition analyzeChunks (stats : Stats.t) : list ChunkInfo.t :=
    Js.sort (fun a b => ChunkInfo.size b - ChunkInfo.size a)
            (map chunkInfo (Stats.chunks stats)).

Definition LARGE_MODULE_THRESHOLD : Z := 50000.

Definition moduleInfo (module : Stats.Module_) : ModuleInfo.t :=
    {| ModuleInfo.name := Js.orString (Stats.name module) "unknown";
       ModuleInfo.size := Js.orZero (Stats.size module);
       ModuleInfo.path := Js.orString (Stats.identifier module) "";
       ModuleInfo.reasons :=
         map (fun r => Js.orString (Stats.moduleName r) "unknown")
             (Js.orNil (Stats.reasons module));
       ModuleInfo.depth := Js.orZero (Stats.depth module) |}.

Definition findLargeModules (stats : Stats.t) : list ModuleInfo.t :=
    Js.slice0 20
      (Js.sort (fun a b => ModuleInfo.size b - ModuleInfo.size a)
         (map moduleInfo
            (filter (fun module => LARGE_MODULE_THRESHOLD <? Js.orZero (Stats.size module))
               (Js.orNil (Stats.modules stats))))).

  (** The regular expression [/([^/\\]+)\.[jt]sx?$/] of [extractModuleName]. *)

  (** [\.[jt]sx?$], from the current position to the end of the input. *)
Definition isExtension (s : string) : bool :=
    existsb (String.eqb s) [".js"; ".ts"; ".jsx"; ".tsx"].

  (** [[^/\\]] *)
Definition notSeparator (c : ascii) : bool :=
    negb (Ascii.eqb c "/") && negb (Ascii.eqb c "\").

  (** The whole expression tried at the head of [s]; the result is group 1.
      The greedy [+] first takes one more character and gives it back
      when the rest does not match. *)
Fixpoint matchHere (s : string) : option string :=
    match s with
    | EmptyString => None
    | String c rest =>
        if notSeparator c then
          match matchHere rest with
          | Some g => Some (String c g)
          | None => if isExtension rest then Some (String c EmptyString) else None
          end
        else None
    end.

  (** [String.prototype.match]: the leftmost position where it matches. *)
Fixpoint regexMatch (s : string) : option string :=
    match matchHere s with
    | Some g => Some g
    | None =>
        match s with
        | EmptyString => None
        | String _ rest => regexMatch rest
        end
    end.

Definition extractModuleName (fullName : string) : string :=
    match regexMatch fullName with
    | Some g => g
    | None => fullName
    end.

Module Entry.
Record t : Type := mk {
      instances : nat;
      totalSize : Z;
      locations : list string
    }.
End Entry.

  (** The body of the [forEach] that fills [moduleMap]. *)
Definition recordModule (moduleMap : list (string * Entry.t)) (module : Stats.Module_)
    : list (string * Entry.t) :=
    let name := extractModuleName (Js.orString (Stats.name module) "") in
    if String.eqb name "" || Js.includes name "webpack" || Js.includes name "node_modules"
    then moduleMap
    else
      match Js.get String.eqb name moduleMap with
      | Some existing =>
          Js.set String.eqb name
            {| Entry.instances := S (Entry.instances existing);
               Entry.totalSize := Entry.totalSize existing + Js.orZero (Stats.size module);
               Entry.locations :=
                 Entry.locations existing ++ [Js.orString (Stats.identifier module) ""] |}
            moduleMap
      | None =>
          Js.set String.eqb name
            {| Entry.instances := 1;
               Entry.totalSize := Js.orZero (Stats.size module);
               Entry.locations := [Js.orString (Stats.identifier module) ""] |}
            moduleMap
      end.

Definition buildModuleMap (ms : list Stats.Module_) : list (string * Entry.t) :=
    fold_left recordModule ms [].

Definition findDuplicateModules (stats : Stats.t) : list DuplicateModule.t :=
    Js.sort (fun a b => DuplicateModule.totalSize b - DuplicateModule.totalSize a)
      (map (fun '(name, data) =>
              {| DuplicateModule.name := name;
                 DuplicateModule.instances := Entry.instances data;
                 DuplicateModule.totalSize := Entry.totalSize data;
                 DuplicateModule.locations := Entry.locations data |})
         (filter (fun '(_, data) => (1 <? Entry.instances data)%nat)
            (buildModuleMap (Js.orNil (Stats.modules stats))))).

  (** [/\.(png|jpg|jpeg|gif|svg|webp)$/] *)
Definition isImageName (name : string) : bool :=
    existsb (Js.endsWith name) [".png"; ".jpg"; ".jpeg"; ".gif"; ".svg"; ".webp"].

  (** The body of the [forEach] of [calculateMetrics]. *)
Definition addAsset (metrics : Metrics.t) (asset : Stats.Asset) : Metrics.t :=
    let size := Js.orZero (Stats.asset_size asset) in
    let name := Js.orString (Stats.asset_name asset) "" in
    if Js.endsWith name ".js" then
      {| Metrics.jsSize := Metrics.jsSize metrics + size;
         Metrics.cssSize := Metrics.cssSize metrics;
         Metrics.imageSize := Metrics.imageSize metrics;
         Metrics.otherSize := Metrics.otherSize metrics |}
    else if Js.endsWith name ".css" then
      {| Metrics.jsSize := Metrics.jsSize metrics;
         Metrics.cssSize := Metrics.cssSize metrics + size;
         Metrics.imageSize := Metrics.imageSize metrics;
         Metrics.otherSize := Metrics.otherSize metrics |}
    else if isImageName name then
      {| Metrics.jsSize := Metrics.jsSize metrics;
         Metrics.cssSize := Metrics.cssSize metrics;
         Metrics.imageSize := Metrics.imageSize metrics + size;
         Metrics.otherSize := Metrics.otherSize metrics |}
    else
      {| Metrics.jsSize := Metrics.jsSize metrics;
         Metrics.cssSize := Metrics.cssSize metrics;
         Metrics.imageSize := Metrics.imageSize metrics;
         Metrics.otherSize := Metrics.otherSize metrics + size |}.

Definition calculateMetrics (stats : Stats.t) : Metrics.t :=
    fold_left addAsset (Stats.assets stats)
      {| Metrics.jsSize := 0; Metrics.cssSize := 0;
         Metrics.imageSize := 0; Metrics.otherSize := 0 |}.

Definition bundleSizeRecommendation : Recommendation.t :=
    {| Recommendation.severity := critical;
       Recommendation.category := "bundle-size";
       Recommendation.title := "Bundle size exceeds recommended limit" |}.

Definition chunkSizeRecommendation (chunk : ChunkInfo.t) : Recommendation.t :=
    {| Recommendation.severity := warning;
       Recommendation.category := "chunk-size";
       Recommendation.title := ("Large chunk detected: " ++ ChunkInfo.name chunk)%string |}.

Definition largeModuleRecommendation (module : ModuleInfo.t) : Recommendation.t :=
    {| Recommendation.severity := warning;
       Recommendation.category := "large-module";
       Recommendation.title := ("Large module: " ++ ModuleInfo.name module)%string |}.

Definition duplicateRecommendation (dup : DuplicateModule.t) : Recommendation.t :=
    {| Recommendation.severity := warning;
       Recommendation.category := "duplicate-modules";
       Recommendation.title := ("Duplicate module: " ++ DuplicateModule.name dup)%string |}.

  (** The recommendations are pushed in the order of the four checks; the
      total that the first check compares is summed over the chunks. *)
Definition generateBundleRecommendations
      (chunks : list ChunkInfo.t) (largeModules : list ModuleInfo.t)
      (duplicates : list DuplicateModule.t) (metrics : Metrics.t)
    : list Recommendation.t :=
    let totalSize := Js.sumBy ChunkInfo.size chunks in
    (if 500000 <? totalSize then [bundleSizeRecommendation] else [])
    ++ map chunkSizeRecommendation (filter (fun chunk => 250000 <? ChunkInfo.size chunk) chunks)
    ++ map largeModuleRecommendation (Js.slice0 3 largeModules)
    ++ map duplicateRecommendation (Js.slice0 3 duplicates).

Definition analyzeWebpackStats (stats : Stats.t) : BundleAnalysis.t :=
    let chunks := analyzeChunks stats in
    let largeModules := findLargeModules stats in
    let duplicates := findDuplicateModules stats in
    let metrics := calculateMetrics stats in
    let recommendations :=
      generateBundleRecommendations chunks largeModules duplicates metrics in
    let totalSize :=
      Js.sumBy (fun asset => Js.orZero (Stats.asset_size asset)) (Stats.assets stats) in
    {| BundleAnalysis.totalSize := totalSize;
       BundleAnalysis.chunks := chunks;
       BundleAnalysis.largeModules := largeModules;
       BundleAnalysis.duplicates := duplicates;
       BundleAnalysis.recommendations := recommendations;
       BundleAnalysis.metrics := metrics |}.

End BundleAnalyzer.

(* ================================================================== *)
(** ** Re-render analyzer *)

Inductive CauseType : Type := props | state | context | parent.

Definition CauseType_eqb (a b : CauseType) : bool :=
  match a, b with
  | props, props | state, state | context, context | parent, parent => true
  | _, _ => false
  end.

Module RenderEvent.
Record t : Type := mk {
  componentName : string;
  timestamp : Z;
  duration : float;
  causeType : CauseType;
  details : string
}.
End RenderEvent.

Module RerenderCause.
Record t : Type := mk {
  type : CauseType;
  count : nat;
  details : string
}.
End RerenderCause.

Module ComponentRerenderInfo.
Record t : Type := mk {
  name : string;
  renderCount : nat;
  avgRenderTime : float;
  causes : list RerenderCause.t;
  isUnnecessary : bool
}.
End ComponentRerenderInfo.

Module RerenderAnalysis.
Record t : Type := mk {
  components : list ComponentRerenderInfo.t;
  totalRerenders : nat;
  unnecessaryRerenders : nat;
  recommendations : list Recommendation.t
}.
End RerenderAnalysis.

Module RerenderAnalyzer.

(** The body of the [forEach] that groups the events by component. *)
Definition groupEvent (componentMap : list (string * list RenderEvent.t))
    (event : RenderEvent.t) : list (string * list RenderEvent.t) :=
  match Js.get String.eqb (RenderEvent.componentName event) componentMap with
  | Some existing =>
      Js.set String.eqb (RenderEvent.componentName event) (existing ++ [event]) componentMap
  | None =>
      Js.set String.eqb (RenderEvent.componentName event) [event] componentMap
  end.

Definition groupEvents (events : list RenderEvent.t) : list (string * list RenderEvent.t) :=
  fold_left groupEvent events [].

(** [renderEvents.reduce((sum, e) => sum + e.duration, 0)] *)
Definition totalDuration (renderEvents : list RenderEvent.t) : float :=
  fold_left (fun sum e => (sum + RenderEvent.duration e)%float) renderEvents 0%float.

(** The body of the [forEach] that fills [causeCounts]. *)
Definition countCause (causeCounts : list (CauseType * nat)) (event : RenderEvent.t)
  : list (CauseType * nat) :=
  let count :=
    match Js.get CauseType_eqb (RenderEvent.causeType event) causeCounts with
    | Some c => c
    | None => 0%nat
    end in
  Js.set CauseType_eqb (RenderEvent.causeType event) (count + 1)%nat causeCounts.

Definition analyzeCauses (renderEvents : list RenderEvent.t) : list RerenderCause.t :=
  map (fun '(type, count) =>
         {| RerenderCause.type := type;
            RerenderCause.count := count;
            RerenderCause.details :=
              Js.orString
                (option_map RenderEvent.details
                   (find (fun e => CauseType_eqb (RenderEvent.causeType e) type) renderEvents))
                "" |})
      (fold_left countCause renderEvents []).

(** The running state of the [forEach] over [componentMap]. *)
Record Tally : Type := mkTally {
  components : list ComponentRerenderInfo.t;
  totalRerenders : nat;
  unnecessaryRerenders : nat
}.

Definition componentInfo (componentName : string) (renderEvents : list RenderEvent.t)
  : ComponentRerenderInfo.t :=
  let renderCount := List.length renderEvents in
  let avgRenderTime := (totalDuration renderEvents / Js.numberOfNat renderCount)%float in
  {| ComponentRerenderInfo.name := componentName;
     ComponentRerenderInfo.renderCount := renderCount;
     ComponentRerenderInfo.avgRenderTime := avgRenderTime;
     ComponentRerenderInfo.causes := analyzeCauses renderEvents;
     ComponentRerenderInfo.isUnnecessary :=
       (5 <? renderCount)%nat && (avgRenderTime <? 5)%float |}.

Definition analyzeComponent (acc : Tally) (entry : string * list RenderEvent.t) : Tally :=
  let '(componentName, renderEvents) := entry in
  let info := componentInfo componentName renderEvents in
  {| components := components acc ++ [info];
     totalRerenders := (totalRerenders acc + ComponentRerenderInfo.renderCount info)%nat;
     unnecessaryRerenders :=
       if ComponentRerenderInfo.isUnnecessary info
       then (unnecessaryRerenders acc + ComponentRerenderInfo.renderCount info)%nat
       else unnecessaryRerenders acc |}.

Definition dquote : string := String (ascii_of_nat 34) EmptyString.

Definition excessiveRendersRecommendation (c : ComponentRerenderInfo.t) : Recommendation.t :=
  {| Recommendation.severity := warning;
     Recommendation.category := "excessive-renders";
     Recommendation.title :=
       ("Component " ++ dquote ++ ComponentRerenderInfo.name c ++ dquote
          ++ " re-renders frequently")%string |}.

Definition stateUpdatesRecommendation (c : ComponentRerenderInfo.t) : Recommendation.t :=
  {| Recommendation.severity := warning;
     Recommendation.category := "state-updates";
     Recommendation.title :=
       ("Component " ++ dquote ++ ComponentRerenderInfo.name c ++ dquote
          ++ " has frequent state updates")%string |}.

Definition slowRendersRecommendation (c : ComponentRerenderInfo.t) : Recommendation.t :=
  {| Recommendation.severity := critical;
     Recommendation.category := "slow-renders";
     Recommendation.title :=
       ("Component " ++ dquote ++ ComponentRerenderInfo.name c ++ dquote
          ++ " renders slowly")%string |}.

(** [component.causes.find((c) => c.type === t)] with a count above 5. *)
Definition causeAbove5 (t : CauseType) (c : ComponentRerenderInfo.t) : bool :=
  match find (fun cause => CauseType_eqb (RerenderCause.type cause) t)
             (ComponentRerenderInfo.causes c) with
  | Some cause => (5 <? RerenderCause.count cause)%nat
  | None => false
  end.

Definition generateRerenderRecommendations (components : list ComponentRerenderInfo.t)
  : list Recommendation.t :=
  flat_map
    (fun component =>
       (if causeAbove5 props component
        then [excessiveRendersRecommendation component] else [])
       ++ (if causeAbove5 state component
           then [stateUpdatesRecommendation component] else []))
    (Js.slice0 5
       (filter (fun c => (10 <? ComponentRerenderInfo.renderCount c)%nat) components))
  ++ map slowRendersRecommendation
       (Js.slice0 3
          (filter (fun c => (16 <? ComponentRerenderInfo.avgRenderTime c)%float)
             components)).

Definition analyzeRenderEvents (events : list RenderEvent.t) : RerenderAnalysis.t :=
  let componentMap := groupEvents events in
  let tally :=
    fold_left analyzeComponent componentMap
      {| components := []; totalRerenders := 0; unnecessaryRerenders := 0 |} in
  let sorted :=
    Js.sort (fun a b => Z.of_nat (ComponentRerenderInfo.renderCount b)
                        - Z.of_nat (ComponentRerenderInfo.renderCount a))
            (components tally) in
  {| RerenderAnalysis.components := sorted;
     RerenderAnalysis.totalRerenders := totalRerenders tally;
     RerenderAnalysis.unnecessaryRerenders := unnecessaryRerenders tally;
     RerenderAnalysis.recommendations := generateRerenderRecommendations sorted |}.

End RerenderAnalyzer.

(* ================================================================== *)
(** ** Memory analyzer *)

Module MemorySnapshot.
Record t : Type := mk {
  timestamp : Z;
  heapUsed : Z;
  heapTotal : Z;
  external : Z;
  arrayBuffers : Z
}.
End MemorySnapshot.

Module LeakedObject.
Record t : Type := mk {
  constructor : string;
  count : Z;
  retainedSize : Z;
  location : option string
}.
End LeakedObject.

(** [description] is prose (it prints a percentage with [toFixed]) and is
    left out, as for [Recommendation]. *)
Module MemoryLeak.
Record t : Type := mk {
  type : string;
  severity : Severity;
  retainedSize : Z;
  objects : list LeakedObject.t
}.
End MemoryLeak.

Module MemoryAnalysis.
Record t : Type := mk {
  snapshots : list MemorySnapshot.t;
  leaks : list MemoryLeak.t;
  heapSize : Z;
  retainedSize : Z;
  recommendations : list Recommendation.t
}.
End MemoryAnalysis.

Module MemoryAnalyzer.

Notation "x <- e ;; k" := (Js.bind e (fun x => k))
  (at level 61, e at next level, right associativity).

(** The loop that fills [growthRates]:
    [snapshots[i].heapUsed - snapshots[i - 1].heapUsed] for [i] from 1. *)
Fixpoint growthRates (snapshots : list MemorySnapshot.t) : list Z :=
  match snapshots with
  | previous :: (current :: _) as rest =>
      (MemorySnapshot.heapUsed current - MemorySnapshot.heapUsed previous)
        :: growthRates rest
  | _ => []
  end.

(** [growthRates.reduce((a, b) => a + b, 0) / growthRates.length] *)
Definition avgGrowth (snapshots : list MemorySnapshot.t) : Q :=
  let rates := growthRates snapshots in
  (inject_Z (fold_left Z.add rates 0%Z) / inject_Z (Z.of_nat (List.length rates)))%Q.

Definition consistentGrowthLeak (snapshots : list MemorySnapshot.t) : MemoryLeak.t :=
  {| MemoryLeak.type := "consistent-growth";
     MemoryLeak.severity := critical;
     MemoryLeak.retainedSize :=
       Qfloor (avgGrowth snapshots * inject_Z (Z.of_nat (List.length snapshots)))%Q;
     MemoryLeak.objects := [] |}.

Definition largeIncreaseLeak (memoryIncrease : Z) : MemoryLeak.t :=
  {| MemoryLeak.type := "large-increase";
     MemoryLeak.severity := warning;
     MemoryLeak.retainedSize := memoryIncrease;
     MemoryLeak.objects := [] |}.

Definition detectDetachedDOMNodes : option MemoryLeak.t :=
  Some {| MemoryLeak.type := "detached-dom";
          MemoryLeak.severity := warning;
          MemoryLeak.retainedSize := 524288;
          MemoryLeak.objects :=
            [ {| LeakedObject.constructor := "HTMLDivElement";
                 LeakedObject.count := 15;
                 LeakedObject.retainedSize := 348160;
                 LeakedObject.location := Some "Component cleanup issue" |};
              {| LeakedObject.constructor := "HTMLButtonElement";
                 LeakedObject.count := 8;
                 LeakedObject.retainedSize := 176128;
                 LeakedObject.location := None |} ] |}.

Definition detectEventListenerLeaks : option MemoryLeak.t :=
  Some {| MemoryLeak.type := "event-listeners";
          MemoryLeak.severity := warning;
          MemoryLeak.retainedSize := 262144;
          MemoryLeak.objects :=
            [ {| LeakedObject.constructor := "EventListener";
                 LeakedObject.count := 42;
                 LeakedObject.retainedSize := 262144;
                 LeakedObject.location := Some "useEffect cleanup missing" |} ] |}.

(** [if (x) leaks.push(x)] *)
Definition pushIf {A : Type} (x : option A) : list A :=
  match x with Some a => [a] | None => [] end.

(** The heap snapshot argument is never read and is left out. *)
Definition detectMemoryLeaks (snapshots : list MemorySnapshot.t)
  : Js.outcome (list MemoryLeak.t) :=
  let growth :=
    if (3 <=? List.length snapshots)%nat
    then (if Js.Qltb 1048576 (avgGrowth snapshots)
          then [consistentGrowthLeak snapshots] else [])
    else [] in
  initialMemory <- Js.field MemorySnapshot.heapUsed (Js.index snapshots 0) ;;
  finalMemory <- Js.field MemorySnapshot.heapUsed
                   (Js.index snapshots (Z.of_nat (List.length snapshots) - 1)) ;;
  let memoryIncrease := finalMemory - initialMemory in
  let increasePercentage := Js.scale (Js.div memoryIncrease initialMemory) 100 in
  Js.Returns
    (growth
     ++ (if Js.gt increasePercentage 50 then [largeIncreaseLeak memoryIncrease] else [])
     ++ pushIf detectDetachedDOMNodes
     ++ pushIf detectEventListenerLeaks).

Definition calculateRetainedSize (snapshots : list MemorySnapshot.t) : Js.outcome Z :=
  if (List.length snapshots <? 2)%nat then Js.Returns 0
  else
    initial <- Js.field MemorySnapshot.heapUsed (Js.index snapshots 0) ;;
    final <- Js.field MemorySnapshot.heapUsed
               (Js.index snapshots (Z.of_nat (List.length snapshots) - 1)) ;;
    Js.Returns (Z.max 0 (final - initial)).

Definition memoryLeakRecommendation (leak : MemoryLeak.t) : Recommendation.t :=
  {| Recommendation.severity := critical;
     Recommendation.category := "memory-leak";
     Recommendation.title := ("Memory leak detected: " ++ MemoryLeak.type leak)%string |}.

Definition detachedDomRecommendation : Recommendation.t :=
  {| Recommendation.severity := warning;
     Recommendation.category := "detached-dom";
     Recommendation.title := "Detached DOM nodes detected" |}.

Definition eventListenersRecommendation : Recommendation.t :=
  {| Recommendation.severity := warning;
     Recommendation.category := "event-listeners";
     Recommendation.title := "Event listeners not properly cleaned up" |}.

Definition highMemoryRecommendation : Recommendation.t :=
  {| Recommendation.severity := warning;
     Recommendation.category := "high-memory";
     Recommendation.title := "High memory usage detected" |}.

Definition generateMemoryRecommendations
    (snapshots : list MemorySnapshot.t) (leaks : list MemoryLeak.t)
  : Js.outcome (list Recommendation.t) :=
  let criticalLeaks :=
    filter (fun l => Severity_eqb (MemoryLeak.severity l) critical) leaks in
  let detachedLeak :=
    find (fun l => String.eqb (MemoryLeak.type l) "detached-dom") leaks in
  let eventLeak :=
    find (fun l => String.eqb (MemoryLeak.type l) "event-listeners") leaks in
  finalMemory <- Js.field MemorySnapshot.heapUsed
                   (Js.index snapshots (Z.of_nat (List.length snapshots) - 1)) ;;
  Js.Returns
    (map memoryLeakRecommendation criticalLeaks
     ++ (match detachedLeak with Some _ => [detachedDomRecommendation] | None => [] end)
     ++ (match eventLeak with Some _ => [eventListenersRecommendation] | None => [] end)
     ++ (if 52428800 <? finalMemory then [highMemoryRecommendation] else [])).

(** The part of [analyzeMemory] that follows the collection of the
    snapshots: leaks, recommendations, heap size and retained size. *)
Definition analyzeSnapshots (snapshots : list MemorySnapshot.t)
  : Js.outcome MemoryAnalysis.t :=
  leaks <- detectMemoryLeaks snapshots ;;
  recommendations <- generateMemoryRecommendations snapshots leaks ;;
  totalHeap <- Js.field MemorySnapshot.heapUsed
                 (Js.index snapshots (Z.of_nat (List.length snapshots) - 1)) ;;
  retainedSize <- calculateRetainedSize snapshots ;;
  Js.Returns
    {| MemoryAnalysis.snapshots := snapshots;
       MemoryAnalysis.leaks := leaks;
       MemoryAnalysis.heapSize := totalHeap;
       MemoryAnalysis.retainedSize := retainedSize;
       MemoryAnalysis.recommendations := recommendations |}.

(** What one call of [collectMemorySnapshot] reads from the page: the
    clock, [performance.memory] ([null] when the browser has none) and
    the two heap entries of [page.metrics()]. *)
Module MemoryInfo.
Record t : Type := mk {
  usedJSHeapSize : option Z;
  totalJSHeapSize : option Z;
  jsHeapSizeLimit : option Z
}.
End MemoryInfo.

Module PageReading.
Record t : Type := mk {
  now : Z;
  memoryInfo : option MemoryInfo.t;
  JSHeapUsedSize : option Z;
  JSHeapTotalSize : option Z
}.
End PageReading.

(** [memoryInfo?.f] *)
Definition optionalField (f : MemoryInfo.t -> option Z) (info : option MemoryInfo.t)
  : option Z :=
  match info with Some i => f i | None => None end.

Definition collectMemorySnapshot (page : PageReading.t) : MemorySnapshot.t :=
  {| MemorySnapshot.timestamp := PageReading.now page;
     MemorySnapshot.heapUsed :=
       Js.orNumber (optionalField MemoryInfo.usedJSHeapSize (PageReading.memoryInfo page))
         (Js.orNumber (PageReading.JSHeapUsedSize page) 0);
     MemorySnapshot.heapTotal :=
       Js.orNumber (optionalField MemoryInfo.totalJSHeapSize (PageReading.memoryInfo page))
         (Js.orNumber (PageReading.JSHeapTotalSize page) 0);
     MemorySnapshot.external := 0;
     MemorySnapshot.arrayBuffers := 0 |}.

Definition numSnapshots : nat := 5.

(** The baseline snapshot and the loop of [analyzeMemory]; [page i] is
    what the page shows at the [i]-th collection. *)
Definition collectSnapshots (page : nat -> PageReading.t) : list MemorySnapshot.t :=
  collectMemorySnapshot (page 0%nat)
  :: map (fun i => collectMemorySnapshot (page (S i))) (seq 0 (numSnapshots - 1)).

(** [analyzeMemory] once the page is loaded. *)
Definition analyzeLoadedPage (page : nat -> PageReading.t) : Js.outcome MemoryAnalysis.t :=
  analyzeSnapshots (collectSnapshots page).

End MemoryAnalyzer.

(* ================================================================== *)
(** ** Report generator: the summary *)

Module Summary.
Record t : Type := mk {
  totalIssues : Z;
  criticalIssues : Z;
  warnings : Z;
  suggestions : list string
}.
End Summary.

Module Analyses.
Record t : Type := mk {
  bundle : option BundleAnalysis.t;
  rerenders : option RerenderAnalysis.t;
  memory : option MemoryAnalysis.t
}.
End Analyses.

Module AnalysisResult.
Record t : Type := mk {
  timestamp : Z;
  projectPath : string;
  analyses : Analyses.t;
  summary : Summary.t
}.
End AnalysisResult.

Module ReportGenerator.

(** [results.analyses.x?.recommendations || []] *)
Definition recommendationsOf {A : Type} (recs : A -> list Recommendation.t)
    (analysis : option A) : list Recommendation.t :=
  Js.orNil (option_map recs analysis).

Definition allRecommendations (results : AnalysisResult.t) : list Recommendation.t :=
  recommendationsOf BundleAnalysis.recommendations
    (Analyses.bundle (AnalysisResult.analyses results))
  ++ recommendationsOf RerenderAnalysis.recommendations
       (Analyses.rerenders (AnalysisResult.analyses results))
  ++ recommendationsOf MemoryAnalysis.recommendations
       (Analyses.memory (AnalysisResult.analyses results)).

(** The body of the [forEach] over [allRecommendations]. *)
Definition tally (acc : Summary.t) (rec : Recommendation.t) : Summary.t :=
  {| Summary.totalIssues := Summary.totalIssues acc + 1;
     Summary.criticalIssues :=
       if Severity_eqb (Recommendation.severity rec) critical
       then Summary.criticalIssues acc + 1 else Summary.criticalIssues acc;
     Summary.warnings :=
       if Severity_eqb (Recommendation.severity rec) critical
       then Summary.warnings acc
       else if Severity_eqb (Recommendation.severity rec) warning
            then Summary.warnings acc + 1 else Summary.warnings acc;
     Summary.suggestions :=
       Summary.suggestions acc
       ++ [(Recommendation.category rec ++ ": " ++ Recommendation.title rec)%string] |}.

(** [calculateSummary] assigns [results.summary]; the updated object is
    the result. *)
Definition calculateSummary (results : AnalysisResult.t) : AnalysisResult.t :=
  {| AnalysisResult.timestamp := AnalysisResult.timestamp results;
     AnalysisResult.projectPath := AnalysisResult.projectPath results;
     AnalysisResult.analyses := AnalysisResult.analyses results;
     AnalysisResult.summary :=
       fold_left tally (allRecommendations results)
         {| Summary.totalIssues := 0; Summary.criticalIssues := 0;
            Summary.warnings := 0; Summary.suggestions := [] |} |}.

End ReportGenerator.

(* ================================================================== *)
(** * Vocabulary of the properties and sample inputs *)

Import BundleAnalyzer RerenderAnalyzer MemoryAnalyzer ReportGenerator.

(** [a] may stand before [b] in a list sorted on [key], largest first. *)
Definition descending {A : Type} (key : A -> Z) (a b : A) : Prop := key b <= key a.

(** The sum of a measure over the values of a map. *)
Definition totalWeight {K V : Type} (weight : V -> nat) (m : list (K * V)) : nat :=
  list_sum (map (fun kv => weight (snd kv)) m).

(** The bucket an asset falls in, by the suffix of its name. *)
Inductive Bucket : Type := JsBucket | CssBucket | ImageBucket | OtherBucket.

Definition Bucket_eqb (a b : Bucket) : bool :=
  match a, b with
  | JsBucket, JsBucket | CssBucket, CssBucket
  | ImageBucket, ImageBucket | OtherBucket, OtherBucket => true
  | _, _ => false
  end.

Definition bucketOf (asset : Stats.Asset) : Bucket :=
  let name := Js.orString (Stats.asset_name asset) "" in
  if Js.endsWith name ".js" then JsBucket
  else if Js.endsWith name ".css" then CssBucket
  else if isImageName name then ImageBucket
  else OtherBucket.

Definition assetSize (asset : Stats.Asset) : Z := Js.orZero (Stats.asset_size asset).

Definition bucketSize (b : Bucket) (assets : list Stats.Asset) : Z :=
  Js.sumBy assetSize (filter (fun a => Bucket_eqb (bucketOf a) b) assets).

(** The check that reports an oversized bundle. *)
Definition isBundleSizeRecommendation (r : Recommendation.t) : bool :=
  Severity_eqb (Recommendation.severity r) critical
  && String.eqb (Recommendation.category r) "bundle-size".

(** A build whose emitted files are larger than its chunks. *)
Definition assetHeavyBuild : Stats.t :=
  {| Stats.assets :=
       [ Stats.mkAsset (Some "main.js") (Some 400000);
         Stats.mkAsset (Some "vendor.js") (Some 200000) ];
     Stats.chunks :=
       [ Stats.mkChunk (Some (Stats.IdNumber 0)) (Some ["main"]) (Some 300000)
           (Some ["main.js"]) (Some true) None None;
         Stats.mkChunk (Some (Stats.IdNumber 1)) (Some ["vendor"]) (Some 150000)
           (Some ["vendor.js"]) (Some true) None None ];
     Stats.modules := Some [] |}.

(** The statistics of the test fixture [createMockWebpackStats]. *)
Definition mockWebpackStats : Stats.t :=
  {| Stats.assets :=
       [ Stats.mkAsset (Some "main.js") (Some 250000);
         Stats.mkAsset (Some "vendor.js") (Some 500000);
         Stats.mkAsset (Some "styles.css") (Some 50000);
         Stats.mkAsset (Some "logo.png") (Some 10000) ];
     Stats.chunks :=
       [ Stats.mkChunk (Some (Stats.IdNumber 0)) (Some ["main"]) (Some 250000)
           (Some ["main.js"]) (Some true)
           (Some [ Stats.mkModule (Some "App.tsx") (Some 15000) (Some "src/App.tsx") None None;
                   Stats.mkModule (Some "Header.tsx") (Some 8000)
                     (Some "src/components/Header.tsx") None None ])
           None;
         Stats.mkChunk (Some (Stats.IdNumber 1)) (Some ["vendor"]) (Some 500000)
           (Some ["vendor.js"]) (Some true)
           (Some [ Stats.mkModule (Some "react") (Some 120000)
                     (Some "node_modules/react/index.js") None None;
                   Stats.mkModule (Some "react-dom") (Some 150000)
                     (Some "node_modules/react-dom/index.js") None None;
                   Stats.mkModule (Some "lodash") (Some 230000)
                     (Some "node_modules/lodash/lodash.js") None None ])
           None ];
     Stats.modules :=
       Some [ Stats.mkModule (Some "App.tsx") (Some 15000) (Some "src/App.tsx")
                (Some 0) (Some []);
              Stats.mkModule (Some "Header.tsx") (Some 8000)
                (Some "src/components/Header.tsx") (Some 1)
                (Some [Stats.mkReason (Some "App.tsx")]);
              Stats.mkModule (Some "react") (Some 120000)
                (Some "node_modules/react/index.js") (Some 0) (Some []);
              Stats.mkModule (Some "lodash") (Some 230000)
                (Some "node_modules/lodash/lodash.js") (Some 0) (Some []);
              Stats.mkModule (Some "lodash") (Some 230000)
                (Some "node_modules/other-package/node_modules/lodash/lodash.js")
                (Some 2) (Some [Stats.mkReason (Some "other-package")]) ] |}.

Definition baseName (module : Stats.Module_) : string :=
  extractModuleName (Js.orString (Stats.name module) "").

(** The guard of [recordModule], on the extracted name. *)
Definition excludedByBaseName (module : Stats.Module_) : bool :=
  String.eqb (baseName module) ""
  || Js.includes (baseName module) "webpack"
  || Js.includes (baseName module) "node_modules".

Definition moduleSize (module : Stats.Module_) : Z := Js.orZero (Stats.size module).

Definition moduleLocation (module : Stats.Module_) : string :=
  Js.orString (Stats.identifier module) "".

(** The modules that are grouped under the name [n]. *)
Definition groupOf (n : string) (ms : list Stats.Module_) : list Stats.Module_ :=
  filter (fun m => negb (excludedByBaseName m) && String.eqb (baseName m) n) ms.

Definition entryOf (n : string) (ms : list Stats.Module_) : option Entry.t :=
  match groupOf n ms with
  | [] => None
  | group =>
      Some {| Entry.instances := List.length group;
              Entry.totalSize := Js.sumBy moduleSize group;
              Entry.locations := map moduleLocation group |}
  end.

Definition utilModule (name identifier : string) (size : Z) : Stats.Module_ :=
  Stats.mkModule (Some name) (Some size) (Some identifier) None None.

Definition webpackRuntime : Stats.Module_ :=
  utilModule "./src/webpack-runtime.js" "/app/src/webpack-runtime.js" 500.

(** Two modules called [util] and two that the guard leaves out. *)
Definition twoUtils : Stats.t :=
  {| Stats.assets := [];
     Stats.chunks := [];
     Stats.modules :=
       Some [ utilModule "./src/a/util.js" "/app/src/a/util.js" 10;
              webpackRuntime;
              utilModule "./src/b/util.js" "/app/src/b/util.js" 20;
              utilModule "./lib/webpack-runtime.js" "/app/lib/webpack-runtime.js" 700 ] |}.

(** The exclusion as the specification words it: on the raw name. *)
Definition rawNameExcluded (module : Stats.Module_) : bool :=
  Js.includes (Js.orString (Stats.name module) "") "webpack"
  || Js.includes (Js.orString (Stats.name module) "") "node_modules".

Definition vendoredUtil : Stats.Module_ :=
  utilModule "./node_modules/lodash/util.js" "/app/node_modules/lodash/util.js" 30.

Definition threeUtils : Stats.t :=
  {| Stats.assets := [];
     Stats.chunks := [];
     Stats.modules :=
       Some [ vendoredUtil;
              utilModule "./src/a/util.js" "/app/src/a/util.js" 10;
              utilModule "./src/b/util.js" "/app/src/b/util.js" 20 ] |}.

(** The events of the component [n], in the order of the stream. *)
Definition eventsOf (n : string) (events : list RenderEvent.t) : list RenderEvent.t :=
  filter (fun e => String.eqb (RenderEvent.componentName e) n) events.

Definition entryInfo (entry : string * list RenderEvent.t) : ComponentRerenderInfo.t :=
  componentInfo (fst entry) (snd entry).

Definition flaggedRenders (cs : list ComponentRerenderInfo.t) : nat :=
  list_sum (map ComponentRerenderInfo.renderCount
              (filter ComponentRerenderInfo.isUnnecessary cs)).

Definition productListEvents : list RenderEvent.t :=
  {| RenderEvent.componentName := "App"; RenderEvent.timestamp := 0;
     RenderEvent.duration := 5.2%float; RenderEvent.causeType := parent;
     RenderEvent.details := "Parent component re-rendered" |}
  :: repeat {| RenderEvent.componentName := "ProductList"; RenderEvent.timestamp := 300;
               RenderEvent.duration := 3.2%float; RenderEvent.causeType := props;
               RenderEvent.details := "Props: items" |} 15.

Definition isConsistentGrowth (leak : MemoryLeak.t) : bool :=
  String.eqb (MemoryLeak.type leak) "consistent-growth".

Definition snapshotAt (heapUsed : Z) : MemorySnapshot.t :=
  {| MemorySnapshot.timestamp := 0;
     MemorySnapshot.heapUsed := heapUsed;
     MemorySnapshot.heapTotal := 33554432;
     MemorySnapshot.external := 0;
     MemorySnapshot.arrayBuffers := 0 |}.

Definition MiB : Z := 1048576.

Definition steadyGrowth : list MemorySnapshot.t :=
  map snapshotAt [10 * MiB; 12 * MiB; 14 * MiB; 16 * MiB].

Definition oddGrowth : list MemorySnapshot.t :=
  map snapshotAt [10 * MiB; 12 * MiB; 14 * MiB + 1].

(** The statistics with every missing size and depth written as 0. *)
Definition moduleWithDefaults (m : Stats.Module_) : Stats.Module_ :=
  {| Stats.name := Stats.name m;
     Stats.size := Some (Js.orZero (Stats.size m));
     Stats.identifier := Stats.identifier m;
     Stats.depth := Some (Js.orZero (Stats.depth m));
     Stats.reasons := Stats.reasons m |}.

Definition chunkWithDefaults (c : Stats.Chunk) : Stats.Chunk :=
  {| Stats.id := Stats.id c;
     Stats.names := Stats.names c;
     Stats.chunk_size := Some (Js.orZero (Stats.chunk_size c));
     Stats.files := Stats.files c;
     Stats.initial := Stats.initial c;
     Stats.chunk_modules := Stats.chunk_modules c;
     Stats.parents := Stats.parents c |}.

Definition assetWithDefaults (a : Stats.Asset) : Stats.Asset :=
  {| Stats.asset_name := Stats.asset_name a;
     Stats.asset_size := Some (Js.orZero (Stats.asset_size a)) |}.

Definition statsWithDefaults (stats : Stats.t) : Stats.t :=
  {| Stats.assets := map assetWithDefaults (Stats.assets stats);
     Stats.chunks := map chunkWithDefaults (Stats.chunks stats);
     Stats.modules := option_map (map moduleWithDefaults) (Stats.modules stats) |}.

Definition emptyStats : Stats.t :=
  {| Stats.assets := []; Stats.chunks := []; Stats.modules := Some [] |}.

Definition countSeverity (s : Severity) (recs : list Recommendation.t) : Z :=
  Z.of_nat (List.length (filter (fun r => Severity_eqb (Recommendation.severity r) s) recs)).

Definition suggestionOf (rec : Recommendation.t) : string :=
  (Recommendation.category rec ++ ": " ++ Recommendation.title rec)%string.

Definition sampleResults : AnalysisResult.t :=
  {| AnalysisResult.timestamp := 0;
     AnalysisResult.projectPath := "/app";
     AnalysisResult.analyses :=
       {| Analyses.bundle := Some (analyzeWebpackStats assetHeavyBuild);
          Analyses.rerenders := Some (analyzeRenderEvents productListEvents);
          Analyses.memory := None |};
     AnalysisResult.summary :=
       {| Summary.totalIssues := 99; Summary.criticalIssues := 0;
          Summary.warnings := 0; Summary.suggestions := ["stale"] |} |}.

(** No character of [s] is a path separator. *)
Fixpoint noSeparator (s : string) : bool :=
  match s with
  | EmptyString => true
  | String c rest => notSeparator c && noSeparator rest
  end.

(** [dir] is empty or ends with a path separator. *)
Definition isDirectoryPrefix (dir : string) : Prop :=
  dir = "" \/ exists d c, dir = (d ++ String c "")%string /\ notSeparator c = false.

(** The summaries of all the modules above the threshold, before the
    sort and the cut. *)
Definition largeModuleInfos (stats : Stats.t) : list ModuleInfo.t :=
  map moduleInfo
    (filter (fun module => LARGE_MODULE_THRESHOLD <? Js.orZero (Stats.size module))
       (Js.orNil (Stats.modules stats))).

Definition isLargeChunk (chunk : ChunkInfo.t) : bool := 250000 <? ChunkInfo.size chunk.

(** What the cause map holds for a cause seen [n] times. *)
Definition countEntry (n : nat) : option nat :=
  match n with
  | O => None
  | S _ => Some n
  end.

(** The events of a group that have the cause [t]. *)
Definition eventsWithCause (t : CauseType) (renderEvents : list RenderEvent.t)
  : list RenderEvent.t :=
  filter (fun e => CauseType_eqb (RenderEvent.causeType e) t) renderEvents.

Definition renderCountZ (c : ComponentRerenderInfo.t) : Z :=
  Z.of_nat (ComponentRerenderInfo.renderCount c).

(** A leak of the given type is among the leaks. *)
Definition hasLeak (type : string) (leaks : list MemoryLeak.t) : bool :=
  existsb (fun leak => String.eqb (MemoryLeak.type leak) type) leaks.

(** The two findings that do not depend on the snapshots. *)
Definition fixedFindings : list MemoryLeak.t :=
  pushIf detectDetachedDOMNodes ++ pushIf detectEventListenerLeaks.

Definition finalHeap (first : MemorySnapshot.t) (rest : list MemorySnapshot.t) : Z :=
  MemorySnapshot.heapUsed (last rest first).

(** Each analysis that is present is the output of its analyzer. *)
Definition producedByAnalyzers (results : AnalysisResult.t) : Prop :=
  (Analyses.bundle (AnalysisResult.analyses results) = None
   \/ exists stats,
        Analyses.bundle (AnalysisResult.analyses results)
        = Some (analyzeWebpackStats stats))
  /\ (Analyses.rerenders (AnalysisResult.analyses results) = None
      \/ exists events,
           Analyses.rerenders (AnalysisResult.analyses results)
           = Some (analyzeRenderEvents events))
  /\ (Analyses.memory (AnalysisResult.analyses results) = None
      \/ exists snapshots analysis,
           analyzeSnapshots snapshots = Js.Returns analysis
           /\ Analyses.memory (AnalysisResult.analyses results) = Some analysis).

(** The real number that a finite double stands for. *)
Definition exactValue (x : float) : option Q :=
  match Prim2SF x with
  | S754_zero _ => Some 0%Q
  | S754_finite negative m e =>
      let magnitude :=
        if 0 <=? e then inject_Z (Zpos m * 2 ^ e)
        else (Zpos m # Pos.pow 2 (Z.to_pos (- e))) in
      Some (if negative then Qopp magnitude else magnitude)
  | S754_infinity _ | S754_nan => None
  end.

Fixpoint exactTotal (renderEvents : list RenderEvent.t) : option Q :=
  match renderEvents with
  | [] => Some 0%Q
  | e :: rest =>
      match exactValue (RenderEvent.duration e), exactTotal rest with
      | Some d, Some total => Some (Qred (d + total))
      | _, _ => None
      end
  end.

(** The arithmetic mean of the durations as the specification words it:
    in exact arithmetic. *)
Definition exactMean (renderEvents : list RenderEvent.t) : option Q :=
  match exactTotal renderEvents with
  | Some total => Some (Qred (total / inject_Z (Z.of_nat (List.length renderEvents))))
  | None => None
  end.

Definition rowRender (duration : float) : RenderEvent.t :=
  {| RenderEvent.componentName := "Row"; RenderEvent.timestamp := 0;
     RenderEvent.duration := duration; RenderEvent.causeType := props;
     RenderEvent.details := "Props: item" |}.

Definition rendersJustAbove : list RenderEvent.t :=
  map rowRender [3.7; 7.5; 3.9; 10.3; 1.2; 3.4]%float.

Definition rendersJustBelow : list RenderEvent.t :=
  map rowRender [5.1; 5.6; 4.1; 0.2; 9.6; 5.4]%float.

(* ================================================================== *)
(** * Properties *)

(** ** The sort *)

Section SortFacts.
Context {A : Type}.

Lemma insert_perm (cmp : A -> A -> Z) (x : A) (l : list A) :
  Permutation (Js.insert cmp x l) (x :: l).
Proof.
  induction l as [|y l IH]; simpl.
  - apply Permutation_refl.
  - destruct (cmp x y <=? 0).
    + apply Permutation_refl.
    + apply perm_trans with (y :: x :: l).
      * apply perm_skip, IH.
      * apply perm_swap.
Qed.

Lemma sort_perm (cmp : A -> A -> Z) (l : list A) :
  Permutation (Js.sort cmp l) l.
Proof.
  induction l as [|x l IH]; simpl.
  - apply perm_nil.
  - apply perm_trans with (x :: Js.sort cmp l).
    + apply insert_perm.
    + apply perm_skip, IH.
Qed.

Lemma sort_length (cmp : A -> A -> Z) (l : list A) :
  List.length (Js.sort cmp l) = List.length l.
Proof. apply Permutation_length, sort_perm. Qed.

Lemma sort_In (cmp : A -> A -> Z) (l : list A) (x : A) :
  In x (Js.sort cmp l) <-> In x l.
Proof.
  split; apply Permutation_in.
  - apply sort_perm.
  - apply Permutation_sym, sort_perm.
Qed.

Lemma sort_Forall (cmp : A -> A -> Z) (P : A -> Prop) (l : list A) :
  Forall P l -> Forall P (Js.sort cmp l).
Proof.
  intros H. apply Forall_forall. intros x Hx.
  apply (proj1 (Forall_forall P l) H), sort_In with (cmp := cmp), Hx.
Qed.

(** Sorting on a numeric key, largest first: [(a, b) => key(b) - key(a)]. *)
Variable key : A -> Z.

Lemma insert_sorted (x : A) (l : list A) :
  StronglySorted (descending key) l ->
  StronglySorted (descending key) (Js.insert (fun a b => key b - key a) x l).
Proof.
  induction 1 as [|y l Hs IH Hy]; simpl.
  - constructor; constructor.
  - cbv beta.
    destruct (Z.leb_spec (key y - key x) 0) as [Hle|Hgt].
    + constructor.
      * constructor; assumption.
      * constructor.
        -- unfold descending. lia.
        -- eapply Forall_impl; [|exact Hy].
           unfold descending. intros z Hz. lia.
    + constructor.
      * exact IH.
      * eapply Permutation_Forall.
        -- apply Permutation_sym, insert_perm.
        -- constructor; [unfold descending; lia | exact Hy].
Qed.

Lemma sort_sorted (l : list A) :
  StronglySorted (descending key) (Js.sort (fun a b => key b - key a) l).
Proof.
  induction l as [|x l IH]; simpl.
  - constructor.
  - apply insert_sorted, IH.
Qed.

(** Stability: the elements of any one key keep the order of the input. *)
Lemma insert_stable (k : Z) (x : A) (l : list A) :
  StronglySorted (descending key) l ->
  filter (fun a => key a =? k) (Js.insert (fun a b => key b - key a) x l)
  = filter (fun a => key a =? k) (x :: l).
Proof.
  induction 1 as [|y l Hs IH Hy]; simpl.
  - reflexivity.
  - cbv beta.
    destruct (Z.leb_spec (key y - key x) 0) as [Hle|Hgt].
    + reflexivity.
    + simpl. rewrite IH. simpl.
      destruct (Z.eqb_spec (key x) k) as [Hx|Hx];
        destruct (Z.eqb_spec (key y) k) as [Hy'|Hy']; try reflexivity.
      lia.
Qed.

Lemma sort_stable (k : Z) (l : list A) :
  filter (fun a => key a =? k) (Js.sort (fun a b => key b - key a) l)
  = filter (fun a => key a =? k) l.
Proof.
  induction l as [|x l IH]; simpl.
  - reflexivity.
  - rewrite insert_stable by apply sort_sorted.
    simpl. rewrite IH. reflexivity.
Qed.

Lemma firstn_sorted (n : nat) (l : list A) :
  StronglySorted (descending key) l -> StronglySorted (descending key) (firstn n l).
Proof.
  intros H. revert n.
  induction H as [|y l Hs IH Hy]; intros [|n]; simpl; try constructor.
  - apply IH.
  - apply Forall_forall. intros z Hz.
    apply (proj1 (Forall_forall _ _) Hy).
    rewrite <- (firstn_skipn n l). apply in_or_app. left. exact Hz.
Qed.

End SortFacts.

(** ** Sums *)

Lemma sumBy_from {A : Type} (f : A -> Z) (l : list A) (z : Z) :
  fold_left (fun sum x => sum + f x) l z = z + Js.sumBy f l.
Proof.
  unfold Js.sumBy. revert z.
  induction l as [|x l IH]; intros z; simpl.
  - lia.
  - rewrite (IH (z + f x)), (IH (f x)). lia.
Qed.

Lemma sumBy_cons {A : Type} (f : A -> Z) (x : A) (l : list A) :
  Js.sumBy f (x :: l) = f x + Js.sumBy f l.
Proof. unfold Js.sumBy at 1. simpl. rewrite sumBy_from. lia. Qed.

Lemma sumBy_app {A : Type} (f : A -> Z) (l1 l2 : list A) :
  Js.sumBy f (l1 ++ l2) = Js.sumBy f l1 + Js.sumBy f l2.
Proof.
  induction l1 as [|x l1 IH]; simpl.
  - reflexivity.
  - rewrite !sumBy_cons, IH. lia.
Qed.

Lemma sumBy_perm {A : Type} (f : A -> Z) (l1 l2 : list A) :
  Permutation l1 l2 -> Js.sumBy f l1 = Js.sumBy f l2.
Proof.
  induction 1; rewrite ?sumBy_cons; lia.
Qed.

(** ** Bundle analyzer *)

(** C8: for every statistics object the chunk summaries are in descending
    order of size, they are the summaries of the input chunks, and the
    chunks of any one size appear in the order of the input. *)
Theorem analyzeChunks_sorted_stable (stats : Stats.t) :
  StronglySorted (descending ChunkInfo.size) (analyzeChunks stats)
  /\ Permutation (analyzeChunks stats) (map chunkInfo (Stats.chunks stats))
  /\ forall s : Z,
       filter (fun c => ChunkInfo.size c =? s) (analyzeChunks stats)
       = filter (fun c => ChunkInfo.size c =? s) (map chunkInfo (Stats.chunks stats)).
Proof.
  unfold analyzeChunks. split; [|split].
  - apply sort_sorted.
  - apply sort_perm.
  - intros s. apply sort_stable.
Qed.

Example analyzeChunks_ties :
  map ChunkInfo.name
    (analyzeChunks
       {| Stats.assets := [];
          Stats.chunks :=
            [ Stats.mkChunk None (Some ["a"]) (Some 10) None None None None;
              Stats.mkChunk None (Some ["b"]) (Some 30) None None None None;
              Stats.mkChunk (Some (Stats.IdNumber 7)) None (Some 10) None None None None;
              Stats.mkChunk None None (Some 30) None None None None ];
          Stats.modules := None |})
  = ["b"; "unknown"; "a"; "7"].
Proof. reflexivity. Qed.

(** C9: the list of large modules has at most 20 entries, each of them
    larger than 50,000 bytes, in descending order of size. *)
Theorem findLargeModules_bounded_sorted (stats : Stats.t) :
  (List.length (findLargeModules stats) <= 20)%nat
  /\ Forall (fun m => 50000 < ModuleInfo.size m) (findLargeModules stats)
  /\ StronglySorted (descending ModuleInfo.size) (findLargeModules stats).
Proof.
  unfold findLargeModules, Js.slice0. split; [|split].
  - apply firstn_le_length.
  - apply Forall_forall. intros m Hm.
    assert (Hall : Forall (fun m => 50000 < ModuleInfo.size m)
                     (Js.sort (fun a b => ModuleInfo.size b - ModuleInfo.size a)
                        (map moduleInfo
                           (filter (fun module =>
                                      LARGE_MODULE_THRESHOLD <? Js.orZero (Stats.size module))
                              (Js.orNil (Stats.modules stats)))))).
    { apply sort_Forall, Forall_forall. intros x Hx.
      apply in_map_iff in Hx. destruct Hx as [raw [<- Hraw]].
      apply filter_In in Hraw. destruct Hraw as [_ Hbig].
      apply Z.ltb_lt in Hbig. exact Hbig. }
    apply (proj1 (Forall_forall _ _) Hall).
    rewrite <- (firstn_skipn 20). apply in_or_app. left. exact Hm.
  - apply firstn_sorted, sort_sorted.
Qed.

Lemma addAsset_buckets (assets : list Stats.Asset) (m : Metrics.t) :
  let m' := fold_left addAsset assets m in
  Metrics.jsSize m' = Metrics.jsSize m + bucketSize JsBucket assets
  /\ Metrics.cssSize m' = Metrics.cssSize m + bucketSize CssBucket assets
  /\ Metrics.imageSize m' = Metrics.imageSize m + bucketSize ImageBucket assets
  /\ Metrics.otherSize m' = Metrics.otherSize m + bucketSize OtherBucket assets.
Proof.
  revert m. induction assets as [|a assets IH]; intros m; simpl.
  - unfold bucketSize, Js.sumBy. simpl. lia.
  - destruct (IH (addAsset m a)) as (Hj & Hc & Hi & Ho).
    rewrite Hj, Hc, Hi, Ho. clear IH Hj Hc Hi Ho.
    unfold bucketSize, addAsset, bucketOf, assetSize. simpl.
    destruct (Js.endsWith (Js.orString (Stats.asset_name a) "") ".js");
      [|destruct (Js.endsWith (Js.orString (Stats.asset_name a) "") ".css");
        [|destruct (isImageName (Js.orString (Stats.asset_name a) ""))]];
      simpl; rewrite ?sumBy_cons; lia.
Qed.

Lemma buckets_cover (assets : list Stats.Asset) :
  bucketSize JsBucket assets + bucketSize CssBucket assets
  + bucketSize ImageBucket assets + bucketSize OtherBucket assets
  = Js.sumBy assetSize assets.
Proof.
  unfold bucketSize.
  induction assets as [|a assets IH]; simpl.
  - reflexivity.
  - rewrite sumBy_cons, <- IH.
    destruct (bucketOf a); simpl; rewrite ?sumBy_cons; lia.
Qed.

(** C4: every asset is added to the one bucket its name selects, so each
    bucket is the total of the assets of its class and the four buckets
    add up to the sum of all asset sizes, which is [totalSize]. *)
Theorem calculateMetrics_partition (stats : Stats.t) :
  let m := calculateMetrics stats in
  Metrics.jsSize m = bucketSize JsBucket (Stats.assets stats)
  /\ Metrics.cssSize m = bucketSize CssBucket (Stats.assets stats)
  /\ Metrics.imageSize m = bucketSize ImageBucket (Stats.assets stats)
  /\ Metrics.otherSize m = bucketSize OtherBucket (Stats.assets stats)
  /\ Metrics.jsSize m + Metrics.cssSize m + Metrics.imageSize m + Metrics.otherSize m
     = Js.sumBy assetSize (Stats.assets stats)
  /\ Js.sumBy assetSize (Stats.assets stats)
     = BundleAnalysis.totalSize (analyzeWebpackStats stats).
Proof.
  unfold calculateMetrics.
  destruct (addAsset_buckets (Stats.assets stats)
              {| Metrics.jsSize := 0; Metrics.cssSize := 0;
                 Metrics.imageSize := 0; Metrics.otherSize := 0 |})
    as (Hj & Hc & Hi & Ho).
  simpl in *. rewrite Hj, Hc, Hi, Ho.
  repeat split; try reflexivity.
  apply buckets_cover.
Qed.

Lemma existsb_map_false {A B : Type} (p : B -> bool) (f : A -> B) (l : list A) :
  (forall a, p (f a) = false) -> existsb p (map f l) = false.
Proof.
  intros H. induction l as [|a l IH]; simpl.
  - reflexivity.
  - rewrite H, IH. reflexivity.
Qed.

(** The recommendation follows the sum of the chunk sizes. *)
Lemma bundle_size_recommendation_by_chunks
    (chunks : list ChunkInfo.t) (largeModules : list ModuleInfo.t)
    (duplicates : list DuplicateModule.t) (metrics : Metrics.t) :
  existsb isBundleSizeRecommendation
    (generateBundleRecommendations chunks largeModules duplicates metrics)
  = (500000 <? Js.sumBy ChunkInfo.size chunks).
Proof.
  unfold generateBundleRecommendations.
  rewrite !existsb_app.
  rewrite !existsb_map_false by reflexivity.
  destruct (500000 <? Js.sumBy ChunkInfo.size chunks); reflexivity.
Qed.

(** C1: on a build whose assets add up to 600,000 bytes while its chunks
    add up to 450,000, [totalSize] is above the limit and no
    critical bundle-size recommendation is emitted. *)
Theorem bundle_size_recommendation_missed :
  BundleAnalysis.totalSize (analyzeWebpackStats assetHeavyBuild) = 600000
  /\ existsb isBundleSizeRecommendation
       (BundleAnalysis.recommendations (analyzeWebpackStats assetHeavyBuild)) = false
  /\ BundleAnalysis.recommendations (analyzeWebpackStats assetHeavyBuild)
     = [ chunkSizeRecommendation
           (chunkInfo (Stats.mkChunk (Some (Stats.IdNumber 0)) (Some ["main"]) (Some 300000)
                         (Some ["main.js"]) (Some true) None None)) ].
Proof. repeat split; vm_compute; reflexivity. Qed.

Example mockWebpackStats_analysis :
  let analysis := analyzeWebpackStats mockWebpackStats in
  BundleAnalysis.totalSize analysis = 810000
  /\ map ChunkInfo.name (BundleAnalysis.chunks analysis) = ["vendor"; "main"]
  /\ map (fun m => (ModuleInfo.name m, ModuleInfo.size m)) (BundleAnalysis.largeModules analysis)
     = [("lodash", 230000); ("lodash", 230000); ("react", 120000)]
  /\ map (fun d => (DuplicateModule.name d, DuplicateModule.instances d,
                    DuplicateModule.totalSize d)) (BundleAnalysis.duplicates analysis)
     = [("lodash", 2%nat, 460000)]
  /\ BundleAnalysis.metrics analysis
     = {| Metrics.jsSize := 750000; Metrics.cssSize := 50000;
          Metrics.imageSize := 10000; Metrics.otherSize := 0 |}
  /\ map Recommendation.category (BundleAnalysis.recommendations analysis)
     = ["bundle-size"; "chunk-size"; "large-module"; "large-module"; "large-module";
        "duplicate-modules"].
Proof. vm_compute. repeat split; reflexivity. Qed.

(** ** The insertion-ordered map *)

Section MapFacts.
Context {K V : Type} (eqb : K -> K -> bool).
Hypothesis eqb_eq : forall a b : K, eqb a b = true <-> a = b.

Lemma eqb_refl' (k : K) : eqb k k = true.
Proof. apply eqb_eq. reflexivity. Qed.

Lemma eqb_neq (a b : K) : a <> b -> eqb a b = false.
Proof.
  intros H. destruct (eqb a b) eqn:E; [|reflexivity].
  apply eqb_eq in E. contradiction.
Qed.

Lemma get_set_same (k : K) (v : V) (m : list (K * V)) :
  Js.get eqb k (Js.set eqb k v m) = Some v.
Proof.
  induction m as [|[k' v'] m IH]; simpl.
  - rewrite eqb_refl'. reflexivity.
  - destruct (eqb k k') eqn:E; simpl.
    + rewrite eqb_refl'. reflexivity.
    + rewrite E. exact IH.
Qed.

Lemma get_set_other (k k0 : K) (v : V) (m : list (K * V)) :
  k0 <> k -> Js.get eqb k0 (Js.set eqb k v m) = Js.get eqb k0 m.
Proof.
  intros Hne. induction m as [|[k' v'] m IH]; simpl.
  - rewrite (eqb_neq k0 k Hne). reflexivity.
  - destruct (eqb k k') eqn:E; simpl.
    + apply eqb_eq in E. subst k'.
      rewrite (eqb_neq k0 k Hne). reflexivity.
    + rewrite IH. reflexivity.
Qed.

Lemma keys_set (k k0 : K) (v : V) (m : list (K * V)) :
  In k0 (map fst (Js.set eqb k v m)) <-> k0 = k \/ In k0 (map fst m).
Proof.
  induction m as [|[k' v'] m IH]; simpl.
  - intuition.
  - destruct (eqb k k') eqn:E; simpl.
    + apply eqb_eq in E. subst k'. intuition.
    + rewrite IH. intuition.
Qed.

Lemma keys_set_NoDup (k : K) (v : V) (m : list (K * V)) :
  NoDup (map fst m) -> NoDup (map fst (Js.set eqb k v m)).
Proof.
  induction m as [|[k' v'] m IH]; simpl; intros Hnd.
  - constructor; [intros []|constructor].
  - inversion Hnd as [|? ? Hnot Hrest]; subst.
    destruct (eqb k k') eqn:E; simpl.
    + apply eqb_eq in E. subst k'. constructor; assumption.
    + constructor.
      * intros Hin. apply keys_set in Hin. destruct Hin as [->|Hin].
        -- rewrite eqb_refl' in E. discriminate.
        -- contradiction.
      * apply IH, Hrest.
Qed.

Lemma get_In (k : K) (v : V) (m : list (K * V)) :
  Js.get eqb k m = Some v -> In (k, v) m.
Proof.
  induction m as [|[k' v'] m IH]; simpl; intros H.
  - discriminate.
  - destruct (eqb k k') eqn:E.
    + apply eqb_eq in E. subst k'. injection H as ->. left. reflexivity.
    + right. apply IH, H.
Qed.

Lemma In_get (k : K) (v : V) (m : list (K * V)) :
  NoDup (map fst m) -> In (k, v) m -> Js.get eqb k m = Some v.
Proof.
  induction m as [|[k' v'] m IH]; simpl; intros Hnd Hin.
  - contradiction.
  - inversion Hnd as [|? ? Hnot Hrest]; subst.
    destruct Hin as [Heq|Hin].
    + injection Heq as -> ->. rewrite eqb_refl'. reflexivity.
    + destruct (eqb k k') eqn:E.
      * apply eqb_eq in E. subst k'. exfalso. apply Hnot.
        apply in_map_iff. exists (k, v). split; [reflexivity|exact Hin].
      * apply IH; assumption.
Qed.

End MapFacts.

(** ** Duplicate modules *)

Lemma length_snoc {A : Type} (l : list A) (x : A) :
  List.length (l ++ [x]) = S (List.length l).
Proof. rewrite length_app. simpl. lia. Qed.

Lemma recordModule_excluded (moduleMap : list (string * Entry.t)) (m : Stats.Module_) :
  excludedByBaseName m = true -> recordModule moduleMap m = moduleMap.
Proof.
  unfold excludedByBaseName, baseName, recordModule. intros ->. reflexivity.
Qed.

Lemma recordModule_grouped (moduleMap : list (string * Entry.t)) (m : Stats.Module_) :
  excludedByBaseName m = false ->
  recordModule moduleMap m
  = Js.set String.eqb (baseName m)
      match Js.get String.eqb (baseName m) moduleMap with
      | Some existing =>
          {| Entry.instances := S (Entry.instances existing);
             Entry.totalSize := Entry.totalSize existing + moduleSize m;
             Entry.locations := Entry.locations existing ++ [moduleLocation m] |}
      | None =>
          {| Entry.instances := 1;
             Entry.totalSize := moduleSize m;
             Entry.locations := [moduleLocation m] |}
      end
      moduleMap.
Proof.
  unfold excludedByBaseName, baseName, recordModule. intros ->.
  destruct (Js.get String.eqb _ moduleMap); reflexivity.
Qed.

Lemma groupOf_snoc (n : string) (ms : list Stats.Module_) (m : Stats.Module_) :
  groupOf n (ms ++ [m])
  = groupOf n ms
    ++ (if negb (excludedByBaseName m) && String.eqb (baseName m) n then [m] else []).
Proof. unfold groupOf. rewrite filter_app. reflexivity. Qed.

Lemma buildModuleMap_spec (ms : list Stats.Module_) :
  NoDup (map fst (buildModuleMap ms))
  /\ forall n, Js.get String.eqb n (buildModuleMap ms) = entryOf n ms.
Proof.
  unfold buildModuleMap.
  induction ms as [|m ms [IHnd IHget]] using rev_ind.
  - split; [constructor|reflexivity].
  - rewrite fold_left_app. simpl.
    destruct (excludedByBaseName m) eqn:Hex.
    + rewrite recordModule_excluded by exact Hex.
      split; [exact IHnd|].
      intros n. unfold entryOf. rewrite groupOf_snoc, Hex. simpl.
      rewrite app_nil_r. apply IHget.
    + rewrite recordModule_grouped by exact Hex.
      split; [apply keys_set_NoDup; [apply String.eqb_eq|exact IHnd]|].
      intros n. unfold entryOf. rewrite groupOf_snoc, Hex. simpl.
      destruct (String.eqb_spec (baseName m) n) as [<-|Hne].
      * rewrite get_set_same by apply String.eqb_eq.
        rewrite IHget. unfold entryOf.
        destruct (groupOf (baseName m) ms) as [|g0 g]; [reflexivity|].
        change ((g0 :: g) ++ [m]) with (g0 :: (g ++ [m])).
        cbv iota. f_equal. f_equal.
        -- simpl. rewrite length_snoc. reflexivity.
        -- rewrite !sumBy_cons, sumBy_app, sumBy_cons.
           unfold Js.sumBy at 3. simpl. lia.
        -- simpl. rewrite map_app. reflexivity.
      * rewrite get_set_other by (apply String.eqb_eq || congruence).
        rewrite app_nil_r. apply IHget.
Qed.

Lemma findDuplicateModules_In (stats : Stats.t) (d : DuplicateModule.t) :
  In d (findDuplicateModules stats)
  <-> exists e,
        entryOf (DuplicateModule.name d) (Js.orNil (Stats.modules stats)) = Some e
        /\ (2 <= Entry.instances e)%nat
        /\ d = {| DuplicateModule.name := DuplicateModule.name d;
                  DuplicateModule.instances := Entry.instances e;
                  DuplicateModule.totalSize := Entry.totalSize e;
                  DuplicateModule.locations := Entry.locations e |}.
Proof.
  unfold findDuplicateModules. rewrite sort_In, in_map_iff.
  destruct (buildModuleMap_spec (Js.orNil (Stats.modules stats))) as [Hnd Hget].
  split.
  - intros [[n e] [<- Hin]]. apply filter_In in Hin. destruct Hin as [Hin Hmany].
    exists e. simpl. rewrite <- Hget.
    split; [apply In_get; [apply String.eqb_eq|exact Hnd|exact Hin]|].
    split; [apply Nat.ltb_lt in Hmany; lia|reflexivity].
  - intros [e (He & Hmany & Hd)].
    exists (DuplicateModule.name d, e). split; [symmetry; exact Hd|].
    apply filter_In. split.
    + apply get_In with (eqb := String.eqb); [apply String.eqb_eq|].
      rewrite Hget. exact He.
    + apply Nat.ltb_lt. lia.
Qed.

(** Every reported group is a group of two or more modules that the guard
    let through, with their count. *)
Lemma findDuplicateModules_only_groups (stats : Stats.t) (d : DuplicateModule.t) :
  In d (findDuplicateModules stats) ->
  let group := groupOf (DuplicateModule.name d) (Js.orNil (Stats.modules stats)) in
  DuplicateModule.instances d = List.length group /\ (2 <= List.length group)%nat.
Proof.
  intros Hd. apply findDuplicateModules_In in Hd.
  destruct Hd as [e (He & Hmany & Hd)].
  unfold entryOf in He. simpl.
  destruct (groupOf (DuplicateModule.name d) (Js.orNil (Stats.modules stats)))
    as [|g0 g]; [discriminate|].
  injection He as <-. rewrite Hd. simpl in *. split; [reflexivity|exact Hmany].
Qed.

(** C2 (amended): a module is left out exactly when its extracted base
    name is empty or contains "webpack" or "node_modules": no group
    bears the name of such a module, however many modules share it, and
    every group counts the modules of its name that are not left out,
    which are two or more.  When two or more of the modules that are not
    left out share a base name, the duplicates hold one group of that
    name, whose instances are their count (and whose size and locations
    are theirs). *)
Theorem findDuplicateModules_groups (stats : Stats.t) (n : string) :
  (forall m d,
     excludedByBaseName m = true ->
     In d (findDuplicateModules stats) ->
     DuplicateModule.name d <> baseName m)
  /\ (forall d,
        In d (findDuplicateModules stats) ->
        DuplicateModule.instances d
        = List.length (groupOf (DuplicateModule.name d) (Js.orNil (Stats.modules stats)))
        /\ (2 <= DuplicateModule.instances d)%nat)
  /\ ((2 <= List.length (groupOf n (Js.orNil (Stats.modules stats))))%nat ->
      exists d,
        In d (findDuplicateModules stats)
        /\ DuplicateModule.name d = n
        /\ DuplicateModule.instances d
           = List.length (groupOf n (Js.orNil (Stats.modules stats)))
        /\ DuplicateModule.totalSize d
           = Js.sumBy moduleSize (groupOf n (Js.orNil (Stats.modules stats)))
        /\ DuplicateModule.locations d
           = map moduleLocation (groupOf n (Js.orNil (Stats.modules stats)))
        /\ forall d', In d' (findDuplicateModules stats) ->
                      DuplicateModule.name d' = n -> d' = d).
Proof.
  split; [|split].
  - intros m d Hex Hd Hname.
    destruct (findDuplicateModules_only_groups stats d Hd) as [_ Hmany].
    destruct (groupOf (DuplicateModule.name d) (Js.orNil (Stats.modules stats)))
      as [|g0 g] eqn:Hgroup; [simpl in Hmany; lia|].
    assert (Hg0 : In g0 (groupOf (DuplicateModule.name d)
                           (Js.orNil (Stats.modules stats))))
      by (rewrite Hgroup; left; reflexivity).
    apply filter_In in Hg0. destruct Hg0 as [_ Hg0].
    apply andb_true_iff in Hg0. destruct Hg0 as [Hkept Hsame].
    apply String.eqb_eq in Hsame. apply negb_true_iff in Hkept.
    unfold excludedByBaseName in Hex, Hkept.
    rewrite Hsame, Hname, Hex in Hkept. discriminate.
  - intros d Hd.
    destruct (findDuplicateModules_only_groups stats d Hd) as [Hcount Hmany].
    split; [exact Hcount|]. rewrite Hcount. exact Hmany.
  - intros Hmany.
    set (group := groupOf n (Js.orNil (Stats.modules stats))) in *.
    assert (He : entryOf n (Js.orNil (Stats.modules stats))
                 = Some {| Entry.instances := List.length group;
                           Entry.totalSize := Js.sumBy moduleSize group;
                           Entry.locations := map moduleLocation group |}).
    { unfold entryOf. fold group. destruct group; [simpl in Hmany; lia|reflexivity]. }
    exists {| DuplicateModule.name := n;
              DuplicateModule.instances := List.length group;
              DuplicateModule.totalSize := Js.sumBy moduleSize group;
              DuplicateModule.locations := map moduleLocation group |}.
    split; [|repeat split].
    + apply findDuplicateModules_In. simpl. eexists. split; [exact He|].
      split; [exact Hmany|reflexivity].
    + intros d' Hd' Hname. apply findDuplicateModules_In in Hd'.
      destruct Hd' as [e (He' & _ & ->)]. simpl in *. subst n.
      rewrite He in He'. injection He' as <-. reflexivity.
Qed.

Lemma findDuplicateModules_groups_witness :
  (2 <= List.length (groupOf "util" (Js.orNil (Stats.modules twoUtils))))%nat
  /\ (exists d,
        In d (findDuplicateModules twoUtils)
        /\ DuplicateModule.name d = "util"
        /\ DuplicateModule.instances d = 2%nat)
  /\ excludedByBaseName webpackRuntime = true
  /\ forall d, In d (findDuplicateModules twoUtils) ->
                DuplicateModule.name d <> "webpack-runtime".
Proof.
  assert (Hmany : (2 <= List.length (groupOf "util" (Js.orNil (Stats.modules twoUtils))))%nat)
    by (vm_compute; lia).
  assert (Hex : excludedByBaseName webpackRuntime = true) by reflexivity.
  split; [exact Hmany|].
  destruct (findDuplicateModules_groups twoUtils "util") as (Hout & _ & Hgroup).
  split; [|split; [exact Hex|]].
  - destruct (Hgroup Hmany) as [d (Hin & Hn & Hi & _)].
    exists d. split; [exact Hin|]. split; [exact Hn|]. rewrite Hi. reflexivity.
  - intros d Hd. exact (Hout webpackRuntime d Hex Hd).
Defined.

(** C2, as stated, fails: a module whose raw name contains "node_modules"
    is grouped under its base name, so the group of the two modules that
    the raw-name rule keeps is reported with three instances, not two. *)
Lemma raw_name_exclusion_refuted :
  rawNameExcluded vendoredUtil = true
  /\ List.length
       (filter (fun m => negb (rawNameExcluded m) && String.eqb (baseName m) "util")
          (Js.orNil (Stats.modules threeUtils))) = 2%nat
  /\ ~ (exists d,
          In d (findDuplicateModules threeUtils)
          /\ DuplicateModule.name d = "util"
          /\ DuplicateModule.instances d = 2%nat)
  /\ findDuplicateModules threeUtils
     = [ {| DuplicateModule.name := "util";
            DuplicateModule.instances := 3;
            DuplicateModule.totalSize := 60;
            DuplicateModule.locations :=
              [ "/app/node_modules/lodash/util.js";
                "/app/src/a/util.js"; "/app/src/b/util.js" ] |} ].
Proof.
  assert (Hrun : findDuplicateModules threeUtils
                 = [ {| DuplicateModule.name := "util";
                        DuplicateModule.instances := 3;
                        DuplicateModule.totalSize := 60;
                        DuplicateModule.locations :=
                          [ "/app/node_modules/lodash/util.js";
                            "/app/src/a/util.js"; "/app/src/b/util.js" ] |} ])
    by (vm_compute; reflexivity).
  split; [vm_compute; reflexivity|].
  split; [vm_compute; reflexivity|].
  split; [|exact Hrun].
  intros [d (Hin & _ & Hi)]. rewrite Hrun in Hin.
  destruct Hin as [<-|[]]. simpl in Hi. discriminate.
Qed.

(** ** Re-render analyzer *)

Section MapTotals.
Context {K V : Type} (eqb : K -> K -> bool) (weight : V -> nat).

Lemma totalWeight_set_new (k : K) (v : V) (m : list (K * V)) :
  Js.get eqb k m = None ->
  totalWeight weight (Js.set eqb k v m) = (totalWeight weight m + weight v)%nat.
Proof.
  unfold totalWeight.
  induction m as [|[k' v'] m IH]; simpl; intros Hget.
  - lia.
  - destruct (eqb k k'); [discriminate|].
    simpl. rewrite IH by exact Hget. lia.
Qed.

Lemma totalWeight_set_old (k : K) (v old : V) (m : list (K * V)) :
  Js.get eqb k m = Some old ->
  (totalWeight weight (Js.set eqb k v m) + weight old = totalWeight weight m + weight v)%nat.
Proof.
  unfold totalWeight.
  induction m as [|[k' v'] m IH]; simpl; intros Hget.
  - discriminate.
  - destruct (eqb k k').
    + injection Hget as ->. simpl. lia.
    + simpl. specialize (IH Hget). lia.
Qed.

End MapTotals.

Lemma groupEvents_snoc (events : list RenderEvent.t) (e : RenderEvent.t) :
  groupEvents (events ++ [e]) = groupEvent (groupEvents events) e.
Proof. unfold groupEvents. rewrite fold_left_app. reflexivity. Qed.

Lemma groupEvents_total (events : list RenderEvent.t) :
  totalWeight (@List.length RenderEvent.t) (groupEvents events) = List.length events.
Proof.
  induction events as [|e events IH] using rev_ind.
  - reflexivity.
  - rewrite groupEvents_snoc, length_snoc. unfold groupEvent.
    destruct (Js.get String.eqb (RenderEvent.componentName e) (groupEvents events))
      as [existing|] eqn:Hget.
    + pose proof (totalWeight_set_old String.eqb (@List.length RenderEvent.t)
                    (RenderEvent.componentName e) (existing ++ [e]) existing
                    (groupEvents events) Hget) as H.
      rewrite length_snoc in H. rewrite <- IH. lia.
    + rewrite (totalWeight_set_new String.eqb (@List.length RenderEvent.t)) by exact Hget.
      rewrite IH. simpl. lia.
Qed.

Lemma groupEvents_spec (events : list RenderEvent.t) :
  NoDup (map fst (groupEvents events))
  /\ forall n, Js.get String.eqb n (groupEvents events)
               = match eventsOf n events with
                 | [] => None
                 | group => Some group
                 end.
Proof.
  induction events as [|e events [IHnd IHget]] using rev_ind.
  - split; [constructor|reflexivity].
  - rewrite groupEvents_snoc. unfold groupEvent at 1 2.
    split.
    + destruct (Js.get String.eqb (RenderEvent.componentName e) (groupEvents events));
        apply keys_set_NoDup; solve [apply String.eqb_eq | exact IHnd].
    + intros n. unfold eventsOf. rewrite filter_app. simpl.
      fold (eventsOf n events).
      destruct (String.eqb_spec (RenderEvent.componentName e) n) as [<-|Hne].
      * rewrite IHget.
        destruct (eventsOf (RenderEvent.componentName e) events) as [|g0 g];
          rewrite get_set_same by apply String.eqb_eq; reflexivity.
      * rewrite app_nil_r.
        destruct (Js.get String.eqb (RenderEvent.componentName e) (groupEvents events));
          rewrite get_set_other by (apply String.eqb_eq || congruence); apply IHget.
Qed.

Lemma flaggedRenders_app (l1 l2 : list ComponentRerenderInfo.t) :
  flaggedRenders (l1 ++ l2) = (flaggedRenders l1 + flaggedRenders l2)%nat.
Proof.
  unfold flaggedRenders. rewrite filter_app, map_app, list_sum_app. reflexivity.
Qed.

Lemma flaggedRenders_perm (l1 l2 : list ComponentRerenderInfo.t) :
  Permutation l1 l2 -> flaggedRenders l1 = flaggedRenders l2.
Proof.
  unfold flaggedRenders.
  induction 1 as [|x l l' _ IH|x y l|l l' l'' _ IH1 _ IH2]; simpl.
  - reflexivity.
  - destruct (ComponentRerenderInfo.isUnnecessary x); simpl; rewrite IH; reflexivity.
  - destruct (ComponentRerenderInfo.isUnnecessary x),
             (ComponentRerenderInfo.isUnnecessary y); simpl; lia.
  - rewrite IH1. exact IH2.
Qed.

Lemma analyzeComponent_fold (entries : list (string * list RenderEvent.t)) (acc : Tally) :
  let out := fold_left analyzeComponent entries acc in
  components out = components acc ++ map entryInfo entries
  /\ totalRerenders out
     = (totalRerenders acc + totalWeight (@List.length RenderEvent.t) entries)%nat
  /\ unnecessaryRerenders out
     = (unnecessaryRerenders acc + flaggedRenders (map entryInfo entries))%nat.
Proof.
  revert acc. induction entries as [|[n evs] entries IH]; intros acc; cbv zeta.
  - unfold totalWeight, flaggedRenders. simpl. rewrite app_nil_r.
    repeat split; lia.
  - change (fold_left analyzeComponent ((n, evs) :: entries) acc)
      with (fold_left analyzeComponent entries (analyzeComponent acc (n, evs))).
    destruct (IH (analyzeComponent acc (n, evs))) as (Hc & Ht & Hu).
    rewrite Hc, Ht, Hu. clear IH Hc Ht Hu.
    change (map entryInfo ((n, evs) :: entries))
      with ([componentInfo n evs] ++ map entryInfo entries).
    rewrite flaggedRenders_app.
    unfold totalWeight, flaggedRenders, entryInfo. simpl.
    rewrite <- app_assoc. simpl.
    split; [reflexivity|].
    match goal with
    | |- context [if ?flag then _ else _] => destruct flag
    end; simpl; split; lia.
Qed.

(** C5: the total of re-renders is the number of events of the stream, and
    the empty stream gives no component, a total of zero and no
    recommendation. *)
Theorem totalRerenders_counts_events (events : list RenderEvent.t) :
  RerenderAnalysis.totalRerenders (analyzeRenderEvents events) = List.length events
  /\ RerenderAnalysis.components (analyzeRenderEvents []) = []
  /\ RerenderAnalysis.totalRerenders (analyzeRenderEvents []) = 0%nat
  /\ RerenderAnalysis.recommendations (analyzeRenderEvents []) = [].
Proof.
  split; [|repeat split].
  unfold analyzeRenderEvents. simpl.
  destruct (analyzeComponent_fold (groupEvents events)
              {| components := []; totalRerenders := 0; unnecessaryRerenders := 0 |})
    as (_ & Ht & _).
  rewrite Ht. simpl. apply groupEvents_total.
Qed.

Lemma components_of_groups (events : list RenderEvent.t) (c : ComponentRerenderInfo.t) :
  In c (RerenderAnalysis.components (analyzeRenderEvents events)) ->
  eventsOf (ComponentRerenderInfo.name c) events <> []
  /\ c = componentInfo (ComponentRerenderInfo.name c)
           (eventsOf (ComponentRerenderInfo.name c) events).
Proof.
  unfold analyzeRenderEvents. simpl. rewrite sort_In.
  destruct (analyzeComponent_fold (groupEvents events)
              {| components := []; totalRerenders := 0; unnecessaryRerenders := 0 |})
    as (Hc & _ & _).
  rewrite Hc. simpl. clear Hc.
  intros Hin. apply in_map_iff in Hin. destruct Hin as [[n evs] [<- Hin]].
  destruct (groupEvents_spec events) as [Hnd Hget].
  apply In_get with (eqb := String.eqb) in Hin; [|apply String.eqb_eq|exact Hnd].
  rewrite Hget in Hin. unfold entryInfo. simpl.
  destruct (eventsOf n events) as [|g0 g]; [discriminate|].
  injection Hin as <-. split; [discriminate|reflexivity].
Qed.

Lemma Qltb_lt (a b : Q) : Js.Qltb a b = true <-> (a < b)%Q.
Proof.
  unfold Js.Qltb. rewrite Qlt_alt.
  destruct (a ?= b)%Q; split; intros H; (reflexivity || discriminate).
Qed.

(** C6 (amended): a component of the analysis stands for the events of
    its name: its render count is their number, and its average is the
    mean as the program computes it in double arithmetic, the durations
    added from 0 in the order of the stream and the sum divided by the
    count; it is flagged exactly when the count is above 5 and that
    average below 5; and [unnecessaryRerenders] adds up the render counts
    of the flagged components. *)
Theorem isUnnecessary_heuristic (events : list RenderEvent.t) :
  (forall c, In c (RerenderAnalysis.components (analyzeRenderEvents events)) ->
     ComponentRerenderInfo.renderCount c
     = List.length (eventsOf (ComponentRerenderInfo.name c) events)
     /\ ComponentRerenderInfo.avgRenderTime c
        = (totalDuration (eventsOf (ComponentRerenderInfo.name c) events)
           / Js.numberOfNat (ComponentRerenderInfo.renderCount c))%float
     /\ (ComponentRerenderInfo.isUnnecessary c = true
         <-> (5 < ComponentRerenderInfo.renderCount c)%nat
             /\ (ComponentRerenderInfo.avgRenderTime c <? 5)%float = true))
  /\ RerenderAnalysis.unnecessaryRerenders (analyzeRenderEvents events)
     = list_sum
         (map ComponentRerenderInfo.renderCount
            (filter ComponentRerenderInfo.isUnnecessary
               (RerenderAnalysis.components (analyzeRenderEvents events)))).
Proof.
  split.
  - intros c Hc. apply components_of_groups in Hc. destruct Hc as [_ Hc].
    rewrite Hc. simpl. split; [reflexivity|]. split; [reflexivity|].
    rewrite andb_true_iff, Nat.ltb_lt. reflexivity.
  - unfold analyzeRenderEvents. simpl.
    destruct (analyzeComponent_fold (groupEvents events)
                {| components := []; totalRerenders := 0; unnecessaryRerenders := 0 |})
      as (Hc & _ & Hu).
    rewrite Hu, Hc. simpl.
    symmetry. apply flaggedRenders_perm, sort_perm.
Qed.

(** C6, as stated, fails where rounding decides: six renders whose
    durations have an exact mean above 5 are flagged, because their mean
    in double arithmetic is 4.9999999999999991, and six renders whose
    exact mean is below 5 are not, because theirs is 5. *)
Lemma exact_mean_flag_refuted :
  (exists mean, exactMean rendersJustAbove = Some mean /\ (5 < mean)%Q)
  /\ map (fun c => (ComponentRerenderInfo.renderCount c,
                    ComponentRerenderInfo.avgRenderTime c,
                    ComponentRerenderInfo.isUnnecessary c))
         (RerenderAnalysis.components (analyzeRenderEvents rendersJustAbove))
     = [(6%nat, 4.9999999999999991%float, true)]
  /\ RerenderAnalysis.unnecessaryRerenders (analyzeRenderEvents rendersJustAbove) = 6%nat
  /\ (exists mean, exactMean rendersJustBelow = Some mean /\ (mean < 5)%Q)
  /\ map (fun c => (ComponentRerenderInfo.renderCount c,
                    ComponentRerenderInfo.avgRenderTime c,
                    ComponentRerenderInfo.isUnnecessary c))
         (RerenderAnalysis.components (analyzeRenderEvents rendersJustBelow))
     = [(6%nat, 5%float, false)]
  /\ RerenderAnalysis.unnecessaryRerenders (analyzeRenderEvents rendersJustBelow) = 0%nat.
Proof.
  split; [eexists; split; [vm_compute; reflexivity|reflexivity]|].
  split; [vm_compute; reflexivity|]. split; [vm_compute; reflexivity|].
  split; [eexists; split; [vm_compute; reflexivity|reflexivity]|].
  split; vm_compute; reflexivity.
Qed.

Example productList_flagged :
  let r := analyzeRenderEvents productListEvents in
  map (fun c => (ComponentRerenderInfo.name c, ComponentRerenderInfo.renderCount c,
                 ComponentRerenderInfo.isUnnecessary c))
      (RerenderAnalysis.components r)
  = [("ProductList", 15%nat, true); ("App", 1%nat, false)]
  /\ RerenderAnalysis.totalRerenders r = 16%nat
  /\ RerenderAnalysis.unnecessaryRerenders r = 15%nat
  /\ map Recommendation.category (RerenderAnalysis.recommendations r)
     = ["excessive-renders"].
Proof. vm_compute. repeat split; reflexivity. Qed.

(** ** Memory analyzer *)

Lemma last_default {A : Type} (a x y : A) (l : list A) :
  last (a :: l) x = last (a :: l) y.
Proof.
  revert a. induction l as [|b l IH]; intros a.
  - reflexivity.
  - change (last (b :: l) x = last (b :: l) y). apply IH.
Qed.

Lemma nth_error_last {A : Type} (x : A) (l : list A) :
  nth_error (x :: l) (List.length l) = Some (last l x).
Proof.
  revert x. induction l as [|y l IH]; intros x.
  - reflexivity.
  - change (nth_error (y :: l) (List.length l) = Some (last (y :: l) x)).
    rewrite IH. destruct l as [|a l]; [reflexivity|].
    f_equal. change (last (y :: a :: l) x) with (last (a :: l) x).
    apply last_default.
Qed.

Lemma index_first {A : Type} (x : A) (l : list A) :
  Js.index (x :: l) 0 = Some x.
Proof. reflexivity. Qed.

Lemma index_last {A : Type} (x : A) (l : list A) :
  Js.index (x :: l) (Z.of_nat (List.length (x :: l)) - 1) = Some (last l x).
Proof.
  unfold Js.index.
  replace (Z.of_nat (List.length (x :: l)) - 1) with (Z.of_nat (List.length l))
    by (simpl List.length; lia).
  destruct (Z.ltb_spec (Z.of_nat (List.length l)) 0) as [Hneg|_]; [lia|].
  rewrite Nat2Z.id. apply nth_error_last.
Qed.

(** What [detectMemoryLeaks] returns on a sequence that has a first
    snapshot. *)
Lemma detectMemoryLeaks_nonempty (first : MemorySnapshot.t) (rest : list MemorySnapshot.t) :
  let snapshots := first :: rest in
  let memoryIncrease :=
    MemorySnapshot.heapUsed (last rest first) - MemorySnapshot.heapUsed first in
  detectMemoryLeaks snapshots
  = Js.Returns
      ((if (3 <=? List.length snapshots)%nat
        then (if Js.Qltb 1048576 (avgGrowth snapshots)
              then [consistentGrowthLeak snapshots] else [])
        else [])
       ++ (if Js.gt (Js.scale (Js.div memoryIncrease (MemorySnapshot.heapUsed first)) 100) 50
           then [largeIncreaseLeak memoryIncrease] else [])
       ++ pushIf detectDetachedDOMNodes
       ++ pushIf detectEventListenerLeaks).
Proof.
  cbv zeta. unfold detectMemoryLeaks.
  rewrite index_first, index_last. reflexivity.
Qed.

Lemma generateMemoryRecommendations_nonempty
    (first : MemorySnapshot.t) (rest : list MemorySnapshot.t) (leaks : list MemoryLeak.t) :
  exists recs, generateMemoryRecommendations (first :: rest) leaks = Js.Returns recs.
Proof.
  unfold generateMemoryRecommendations. rewrite index_last.
  eexists. reflexivity.
Qed.

Lemma calculateRetainedSize_returns (snapshots : list MemorySnapshot.t) :
  exists size, calculateRetainedSize snapshots = Js.Returns size /\ 0 <= size.
Proof.
  unfold calculateRetainedSize.
  destruct (List.length snapshots <? 2)%nat eqn:Hlen.
  - exists 0. split; [reflexivity|lia].
  - destruct snapshots as [|first rest]; [discriminate|].
    rewrite index_first, index_last. simpl.
    eexists. split; [reflexivity|lia].
Qed.

Lemma analyzeSnapshots_nonempty (first : MemorySnapshot.t) (rest : list MemorySnapshot.t) :
  exists analysis, analyzeSnapshots (first :: rest) = Js.Returns analysis.
Proof.
  unfold analyzeSnapshots.
  rewrite detectMemoryLeaks_nonempty. cbv zeta.
  match goal with
  | |- context [Js.bind (Js.Returns ?l) _] => set (leaks := l)
  end.
  destruct (generateMemoryRecommendations_nonempty first rest leaks) as [recs Hrecs].
  destruct (calculateRetainedSize_returns (first :: rest)) as [size [Hsize _]].
  unfold Js.bind. cbv beta iota.
  rewrite Hrecs, index_last, Hsize.
  eexists. reflexivity.
Qed.

(** C7, as stated, fails: the retained size of the leak is rounded down,
    so on deltas of 2 MiB and 2 MiB + 1 over three snapshots it is
    6,291,457 and not the mean delta times three (6,291,457.5). *)
Lemma consistent_growth_size_not_exact :
  exists leak rest,
    detectMemoryLeaks oddGrowth = Js.Returns (leak :: rest)
    /\ MemoryLeak.type leak = "consistent-growth"
    /\ MemoryLeak.retainedSize leak = 6291457
    /\ (avgGrowth oddGrowth * inject_Z (Z.of_nat (List.length oddGrowth)) == 12582915 # 2)%Q
    /\ ~ (inject_Z (MemoryLeak.retainedSize leak)
          == avgGrowth oddGrowth * inject_Z (Z.of_nat (List.length oddGrowth)))%Q.
Proof.
  eexists. eexists. split; [vm_compute; reflexivity|].
  split; [reflexivity|]. split; [vm_compute; reflexivity|].
  split; [vm_compute; reflexivity|].
  vm_compute. discriminate.
Qed.

(** C7 (amended): on three snapshots or more the detection returns, and a
    consistent-growth leak is among the leaks exactly when the mean of the
    deltas of consecutive [heapUsed] is above 1,048,576; that leak is
    critical and its retained size is the mean delta times the number of
    snapshots, rounded down.  On 10, 12, 14 and 16 MiB the leak is
    present and the retained size of the analysis is 6 MiB. *)
Theorem consistent_growth_rule :
  (forall snapshots : list MemorySnapshot.t,
     (3 <= List.length snapshots)%nat ->
     exists leaks,
       detectMemoryLeaks snapshots = Js.Returns leaks
       /\ (existsb isConsistentGrowth leaks = true
           <-> (1048576 < avgGrowth snapshots)%Q)
       /\ forall leak, In leak leaks -> isConsistentGrowth leak = true ->
            MemoryLeak.severity leak = critical
            /\ MemoryLeak.retainedSize leak
               = Qfloor (avgGrowth snapshots
                         * inject_Z (Z.of_nat (List.length snapshots)))%Q)
  /\ (avgGrowth steadyGrowth == inject_Z (2 * MiB))%Q
  /\ exists analysis,
       analyzeSnapshots steadyGrowth = Js.Returns analysis
       /\ MemoryAnalysis.retainedSize analysis = 6 * MiB
       /\ existsb (fun leak => isConsistentGrowth leak
                               && Severity_eqb (MemoryLeak.severity leak) critical)
            (MemoryAnalysis.leaks analysis) = true.
Proof.
  split; [|split].
  - intros snapshots Hlen.
    destruct snapshots as [|first rest]; [simpl in Hlen; lia|].
    rewrite detectMemoryLeaks_nonempty. cbv zeta.
    apply Nat.leb_le in Hlen. rewrite Hlen.
    eexists. split; [reflexivity|]. split.
    + rewrite <- Qltb_lt.
      destruct (Js.Qltb 1048576 (avgGrowth (first :: rest)));
        match goal with
        | |- context [if ?c then [largeIncreaseLeak ?i] else []] => destruct c
        end; simpl; split; intros H; (reflexivity || discriminate).
    + intros leak Hin Hcg.
      destruct (Js.Qltb 1048576 (avgGrowth (first :: rest)));
        match type of Hin with
        | context [if ?c then [largeIncreaseLeak ?i] else []] => destruct c
        end; simpl in Hin;
        repeat (destruct Hin as [<-|Hin]; [try discriminate Hcg|]);
        try contradiction;
        split; reflexivity.
  - vm_compute. reflexivity.
  - eexists. split; [vm_compute; reflexivity|].
    split; vm_compute; reflexivity.
Qed.

Lemma consistent_growth_rule_witness :
  (3 <= List.length steadyGrowth)%nat
  /\ exists leaks,
       detectMemoryLeaks steadyGrowth = Js.Returns leaks
       /\ (existsb isConsistentGrowth leaks = true
           <-> (1048576 < avgGrowth steadyGrowth)%Q).
Proof.
  assert (Hlen : (3 <= List.length steadyGrowth)%nat) by (simpl; lia).
  split; [exact Hlen|].
  destruct (proj1 consistent_growth_rule steadyGrowth Hlen) as [leaks (Hrun & Hiff & _)].
  exists leaks. split; [exact Hrun|exact Hiff].
Defined.

(** ** Totality *)

Lemma orNil_map {A B : Type} (f : A -> B) (x : option (list A)) :
  Js.orNil (option_map (map f) x) = map f (Js.orNil x).
Proof. destruct x; reflexivity. Qed.

Lemma fold_left_map_same {A B : Type} (step : B -> A -> B) (f : A -> A) (l : list A) (b : B) :
  (forall acc a, step acc (f a) = step acc a) ->
  fold_left step (map f l) b = fold_left step l b.
Proof.
  intros H. revert b. induction l as [|a l IH]; intros b; simpl.
  - reflexivity.
  - rewrite H. apply IH.
Qed.

Lemma filter_map_same {A : Type} (p : A -> bool) (f : A -> A) (l : list A) :
  (forall a, p (f a) = p a) ->
  filter p (map f l) = map f (filter p l).
Proof.
  intros H. induction l as [|a l IH]; simpl.
  - reflexivity.
  - rewrite H. destruct (p a); simpl; rewrite IH; reflexivity.
Qed.

Lemma analyzeWebpackStats_defaults (stats : Stats.t) :
  analyzeWebpackStats (statsWithDefaults stats) = analyzeWebpackStats stats.
Proof.
  assert (Hchunks : analyzeChunks (statsWithDefaults stats) = analyzeChunks stats).
  { unfold analyzeChunks. simpl. rewrite map_map. reflexivity. }
  assert (Hlarge : findLargeModules (statsWithDefaults stats) = findLargeModules stats).
  { unfold findLargeModules. simpl. rewrite orNil_map.
    rewrite filter_map_same by reflexivity. rewrite map_map. reflexivity. }
  assert (Hdup : findDuplicateModules (statsWithDefaults stats) = findDuplicateModules stats).
  { unfold findDuplicateModules, buildModuleMap. simpl. rewrite orNil_map.
    rewrite fold_left_map_same by reflexivity. reflexivity. }
  assert (Hmetrics : calculateMetrics (statsWithDefaults stats) = calculateMetrics stats).
  { unfold calculateMetrics. simpl.
    rewrite fold_left_map_same by reflexivity. reflexivity. }
  unfold analyzeWebpackStats. rewrite Hchunks, Hlarge, Hdup, Hmetrics.
  f_equal. simpl. unfold Js.sumBy.
  apply fold_left_map_same with (step := fun sum asset => sum + Js.orZero (Stats.asset_size asset)).
  reflexivity.
Qed.

(** C3, as stated, fails on an empty sequence of snapshots: the leak
    detection, the recommendations and the analysis read [heapUsed] of a
    snapshot that is not there. *)
Lemma empty_snapshots_throw :
  detectMemoryLeaks [] = Js.ThrowsTypeError
  /\ (forall leaks, generateMemoryRecommendations [] leaks = Js.ThrowsTypeError)
  /\ analyzeSnapshots [] = Js.ThrowsTypeError.
Proof. repeat split. Qed.

(** C3 (amended): the bundle and re-render aggregations are total, a
    missing size or depth counts as 0, and empty statistics and an empty
    stream of events give empty, all-zero results; the memory functions
    return on every sequence that has at least one snapshot, and the
    retained size is computed (as 0) even for an empty one. *)
Theorem aggregations_total
    (stats : Stats.t) (snapshots : list MemorySnapshot.t) (leaks : list MemoryLeak.t) :
  snapshots <> [] ->
  analyzeWebpackStats (statsWithDefaults stats) = analyzeWebpackStats stats
  /\ analyzeWebpackStats emptyStats
     = {| BundleAnalysis.totalSize := 0;
          BundleAnalysis.chunks := [];
          BundleAnalysis.largeModules := [];
          BundleAnalysis.duplicates := [];
          BundleAnalysis.recommendations := [];
          BundleAnalysis.metrics :=
            {| Metrics.jsSize := 0; Metrics.cssSize := 0;
               Metrics.imageSize := 0; Metrics.otherSize := 0 |} |}
  /\ analyzeWebpackStats
       {| Stats.assets := []; Stats.chunks := []; Stats.modules := None |}
     = analyzeWebpackStats emptyStats
  /\ analyzeRenderEvents []
     = {| RerenderAnalysis.components := [];
          RerenderAnalysis.totalRerenders := 0;
          RerenderAnalysis.unnecessaryRerenders := 0;
          RerenderAnalysis.recommendations := [] |}
  /\ (exists found, detectMemoryLeaks snapshots = Js.Returns found)
  /\ (exists recs, generateMemoryRecommendations snapshots leaks = Js.Returns recs)
  /\ (exists analysis, analyzeSnapshots snapshots = Js.Returns analysis)
  /\ (exists size, calculateRetainedSize snapshots = Js.Returns size)
  /\ calculateRetainedSize [] = Js.Returns 0.
Proof.
  intros Hne. destruct snapshots as [|first rest]; [contradiction|].
  split; [apply analyzeWebpackStats_defaults|].
  split; [reflexivity|]. split; [reflexivity|]. split; [reflexivity|].
  split; [rewrite detectMemoryLeaks_nonempty; eexists; reflexivity|].
  split; [apply generateMemoryRecommendations_nonempty|].
  split; [apply analyzeSnapshots_nonempty|].
  split; [|reflexivity].
  destruct (calculateRetainedSize_returns (first :: rest)) as [size [H _]].
  exists size. exact H.
Qed.

Lemma aggregations_total_witness :
  [snapshotAt (20 * MiB)] <> []
  /\ (exists found, detectMemoryLeaks [snapshotAt (20 * MiB)] = Js.Returns found)
  /\ (exists analysis, analyzeSnapshots [snapshotAt (20 * MiB)] = Js.Returns analysis).
Proof.
  assert (Hne : [snapshotAt (20 * MiB)] <> []) by discriminate.
  split; [exact Hne|].
  destruct (aggregations_total emptyStats [snapshotAt (20 * MiB)] [] Hne)
    as (_ & _ & _ & _ & Hd & _ & Ha & _).
  split; [exact Hd|exact Ha].
Defined.

(** ** Summary *)

Lemma tally_fold (recs : list Recommendation.t) (acc : Summary.t) :
  let out := fold_left tally recs acc in
  Summary.totalIssues out = Summary.totalIssues acc + Z.of_nat (List.length recs)
  /\ Summary.criticalIssues out = Summary.criticalIssues acc + countSeverity critical recs
  /\ Summary.warnings out = Summary.warnings acc + countSeverity warning recs
  /\ Summary.suggestions out = Summary.suggestions acc ++ map suggestionOf recs.
Proof.
  cbv zeta. revert acc. induction recs as [|r recs IH]; intros acc.
  - unfold countSeverity. simpl. rewrite app_nil_r. repeat split; lia.
  - change (fold_left tally (r :: recs) acc) with (fold_left tally recs (tally acc r)).
    destruct (IH (tally acc r)) as (Ht & Hc & Hw & Hs).
    rewrite Ht, Hc, Hw, Hs. clear IH Ht Hc Hw Hs.
    unfold countSeverity, tally. simpl.
    rewrite <- app_assoc. simpl.
    destruct (Recommendation.severity r); simpl; repeat split; lia.
Qed.

(** C10: after the summary is recomputed, [totalIssues] is the number of
    recommendations of the analyses that are present, taken in the order
    bundle, re-renders, memory; [criticalIssues] and [warnings] count the
    recommendations of their severity; and recomputing the summary a
    second time changes nothing. *)
Theorem calculateSummary_counts_idempotent (results : AnalysisResult.t) :
  let all :=
    Js.orNil (option_map BundleAnalysis.recommendations
                (Analyses.bundle (AnalysisResult.analyses results)))
    ++ Js.orNil (option_map RerenderAnalysis.recommendations
                   (Analyses.rerenders (AnalysisResult.analyses results)))
    ++ Js.orNil (option_map MemoryAnalysis.recommendations
                   (Analyses.memory (AnalysisResult.analyses results))) in
  let summary := AnalysisResult.summary (calculateSummary results) in
  Summary.totalIssues summary = Z.of_nat (List.length all)
  /\ Summary.criticalIssues summary = countSeverity critical all
  /\ Summary.warnings summary = countSeverity warning all
  /\ Summary.suggestions summary = map suggestionOf all
  /\ calculateSummary (calculateSummary results) = calculateSummary results.
Proof.
  cbv zeta. unfold calculateSummary at 1 2 3 4. simpl AnalysisResult.summary.
  destruct (tally_fold (allRecommendations results)
              {| Summary.totalIssues := 0; Summary.criticalIssues := 0;
                 Summary.warnings := 0; Summary.suggestions := [] |})
    as (Ht & Hc & Hw & Hs).
  cbv zeta in *. simpl in Ht, Hc, Hw, Hs.
  repeat split; try assumption.
Qed.

Example sampleResults_summary :
  AnalysisResult.summary (calculateSummary sampleResults)
  = {| Summary.totalIssues := 2; Summary.criticalIssues := 0; Summary.warnings := 2;
       Summary.suggestions :=
         [ "chunk-size: Large chunk detected: main";
           ("excessive-renders: Component " ++ dquote ++ "ProductList" ++ dquote
              ++ " re-renders frequently")%string ] |}.
Proof. vm_compute. reflexivity. Qed.

Example extractModuleName_samples :
  map extractModuleName
    ["./src/components/Header.tsx"; "lodash"; "./node_modules/lodash/lodash.js";
     "a.b.ts"; "/.js"; "dir\file.jsx"; "x.json"; ""]
  = ["Header"; "lodash"; "lodash"; "a.b"; "/.js"; "file"; "x.json"; ""].
Proof. reflexivity. Qed.

(* ================================================================== *)
(** * Further properties of the analyzers *)

(** ** The name of a module *)

Lemma noSeparator_app (a b : string) :
  noSeparator (a ++ b)%string = noSeparator a && noSeparator b.
Proof.
  induction a as [|c a IH]; simpl.
  - reflexivity.
  - rewrite IH, andb_assoc. reflexivity.
Qed.

Lemma isExtension_cases (e : string) :
  isExtension e = true -> e = ".js" \/ e = ".ts" \/ e = ".jsx" \/ e = ".tsx".
Proof.
  unfold isExtension. simpl. rewrite !orb_true_iff, !String.eqb_eq.
  intuition discriminate.
Qed.

Lemma isExtension_plain (e : string) :
  isExtension e = true -> noSeparator e = true /\ matchHere e = None.
Proof.
  intros H. destruct (isExtension_cases e H) as [-> | [-> | [-> | ->]]];
    split; reflexivity.
Qed.

(** A match at the head of [s] is a run of characters other than
    separators, followed by an extension that ends [s]. *)
Lemma matchHere_sound (s g : string) :
  matchHere s = Some g ->
  exists e, s = (g ++ e)%string /\ isExtension e = true
            /\ g <> "" /\ noSeparator g = true.
Proof.
  revert g. induction s as [|c rest IH]; simpl; intros g H.
  - discriminate.
  - destruct (notSeparator c) eqn:Hc; [|discriminate].
    destruct (matchHere rest) as [g'|] eqn:Hrest.
    + injection H as <-. destruct (IH g' eq_refl) as [e (-> & He & _ & Hg)].
      exists e. simpl. rewrite Hc, Hg. repeat split; try assumption. discriminate.
    + destruct (isExtension rest) eqn:Hext; [|discriminate].
      injection H as <-. exists rest. simpl. rewrite Hc.
      repeat split; try assumption. discriminate.
Qed.

Lemma matchHere_separator_free (s g : string) :
  matchHere s = Some g -> noSeparator s = true.
Proof.
  intros H. destruct (matchHere_sound s g H) as [e (-> & He & _ & Hg)].
  rewrite noSeparator_app, Hg. apply isExtension_plain in He. apply He.
Qed.

Lemma matchHere_stem (stem ext : string) :
  stem <> "" -> noSeparator stem = true -> isExtension ext = true ->
  matchHere (stem ++ ext)%string = Some stem.
Proof.
  intros Hne Hfree Hext.
  induction stem as [|c stem IH]; [contradiction|].
  simpl in Hfree. apply andb_true_iff in Hfree. destruct Hfree as [Hc Hfree].
  simpl. rewrite Hc.
  destruct stem as [|c' stem].
  - simpl. destruct (isExtension_plain ext Hext) as [_ ->]. rewrite Hext. reflexivity.
  - rewrite IH by (discriminate || assumption). reflexivity.
Qed.

Lemma regexMatch_cons (c : ascii) (rest : string) :
  regexMatch (String c rest)
  = match matchHere (String c rest) with
    | Some g => Some g
    | None => regexMatch rest
    end.
Proof. reflexivity. Qed.

Lemma regexMatch_here (s g : string) :
  matchHere s = Some g -> regexMatch s = Some g.
Proof.
  intros H. destruct s as [|c rest]; [discriminate H|].
  rewrite regexMatch_cons, H. reflexivity.
Qed.

Lemma regexMatch_skips (dir r : string) :
  isDirectoryPrefix dir -> regexMatch (dir ++ r)%string = regexMatch r.
Proof.
  intros [->|[d [c [-> Hc]]]]; [reflexivity|].
  induction d as [|c0 d IH].
  - change (regexMatch (String c r) = regexMatch r).
    rewrite regexMatch_cons. simpl. rewrite Hc. reflexivity.
  - change (regexMatch (String c0 ((d ++ String c "") ++ r))
            = regexMatch r).
    assert (Hnone : matchHere (String c0 ((d ++ String c "") ++ r)) = None).
    { destruct (matchHere (String c0 ((d ++ String c "") ++ r))) as [g|] eqn:Hm;
        [|reflexivity].
      apply matchHere_separator_free in Hm. simpl in Hm.
      rewrite !noSeparator_app in Hm. simpl in Hm. rewrite Hc in Hm.
      rewrite !andb_false_r, ?andb_false_l in Hm. simpl in Hm.
      rewrite ?andb_false_r in Hm. discriminate. }
    rewrite regexMatch_cons, Hnone. exact IH.
Qed.

(** The name under which a module is grouped is its file name without
    directories and without the [.js], [.ts], [.jsx] or [.tsx] suffix. *)
Theorem extractModuleName_strips_path (dir stem ext : string) :
  isDirectoryPrefix dir ->
  stem <> "" ->
  noSeparator stem = true ->
  isExtension ext = true ->
  extractModuleName (dir ++ stem ++ ext)%string = stem.
Proof.
  intros Hdir Hne Hfree Hext. unfold extractModuleName.
  rewrite regexMatch_skips by exact Hdir.
  rewrite (regexMatch_here _ stem) by (apply matchHere_stem; assumption).
  reflexivity.
Qed.

Lemma extractModuleName_strips_path_witness :
  isDirectoryPrefix "./src/components/"
  /\ "Header" <> ""
  /\ noSeparator "Header" = true
  /\ isExtension ".tsx" = true
  /\ extractModuleName "./src/components/Header.tsx" = "Header".
Proof.
  assert (Hdir : isDirectoryPrefix "./src/components/").
  { right. exists "./src/components", "/"%char. split; reflexivity. }
  assert (Hne : "Header" <> "") by discriminate.
  split; [exact Hdir|]. split; [exact Hne|]. split; [reflexivity|].
  split; [reflexivity|].
  exact (extractModuleName_strips_path "./src/components/" "Header" ".tsx"
           Hdir Hne eq_refl eq_refl).
Defined.

Lemma regexMatch_sound (s g : string) :
  regexMatch s = Some g ->
  exists d r, s = (d ++ r)%string /\ matchHere r = Some g /\ isDirectoryPrefix d.
Proof.
  induction s as [|c rest IH].
  - simpl. discriminate.
  - intros H. rewrite regexMatch_cons in H.
    destruct (matchHere (String c rest)) as [g0|] eqn:Hhere.
    + injection H as <-. exists "", (String c rest).
      split; [reflexivity|]. split; [exact Hhere|]. left. reflexivity.
    + destruct (IH H) as [d [r (-> & Hr & Hd)]].
      exists (String c d), r. split; [reflexivity|]. split; [exact Hr|].
      right. destruct Hd as [->|[d' [c' [-> Hc']]]].
      * exists "", c. split; [reflexivity|].
        simpl in Hhere. destruct (notSeparator c); [|reflexivity].
        rewrite Hr in Hhere. discriminate.
      * exists (String c d'), c'. split; [reflexivity|exact Hc'].
Qed.

(** [extractModuleName] either returns the name unchanged, or a non-empty
    last path segment of it in front of a JS/TS extension; in particular
    the result is empty only for the empty name. *)
Theorem extractModuleName_shape (fullName : string) :
  (extractModuleName fullName = fullName
   \/ exists dir ext,
        fullName = (dir ++ extractModuleName fullName ++ ext)%string
        /\ isDirectoryPrefix dir
        /\ isExtension ext = true
        /\ noSeparator (extractModuleName fullName) = true)
  /\ (extractModuleName fullName = "" <-> fullName = "").
Proof.
  unfold extractModuleName.
  destruct (regexMatch fullName) as [g|] eqn:Hm.
  - destruct (regexMatch_sound fullName g Hm) as [d [r (-> & Hr & Hd)]].
    destruct (matchHere_sound r g Hr) as [e (-> & He & Hne & Hfree)].
    split.
    + right. exists d, e. repeat split; assumption.
    + split; [intros ->; contradiction|].
      intros Hempty. destruct d; [|discriminate]. destruct g; [contradiction|discriminate].
  - split; [left; reflexivity|tauto].
Qed.

(** ** Duplicate groups *)

Lemma NoDup_keys_filter {K V : Type} (p : K * V -> bool) (m : list (K * V)) :
  NoDup (map fst m) -> NoDup (map fst (filter p m)).
Proof.
  induction m as [|x m IH]; simpl; intros Hnd.
  - constructor.
  - inversion Hnd as [|? ? Hnot Hrest]; subst.
    destruct (p x); simpl; [|apply IH, Hrest].
    constructor; [|apply IH, Hrest].
    intros Hin. apply Hnot.
    apply in_map_iff in Hin. destruct Hin as [y [Hy Hin]].
    apply filter_In in Hin. apply in_map_iff. exists y. split; [exact Hy|apply Hin].
Qed.

Lemma list_sum_perm (l1 l2 : list nat) :
  Permutation l1 l2 -> list_sum l1 = list_sum l2.
Proof. induction 1; simpl; lia. Qed.

Lemma totalWeight_filter_le {K V : Type} (weight : V -> nat) (p : K * V -> bool)
    (m : list (K * V)) :
  (totalWeight weight (filter p m) <= totalWeight weight m)%nat.
Proof.
  unfold totalWeight. induction m as [|x m IH]; simpl.
  - lia.
  - destruct (p x); simpl; lia.
Qed.

Lemma buildModuleMap_instances (ms : list Stats.Module_) :
  totalWeight Entry.instances (buildModuleMap ms)
  = List.length (filter (fun m => negb (excludedByBaseName m)) ms).
Proof.
  unfold buildModuleMap.
  induction ms as [|m ms IH] using rev_ind.
  - reflexivity.
  - rewrite fold_left_app, filter_app, length_app. simpl.
    destruct (excludedByBaseName m) eqn:Hex; simpl.
    + rewrite recordModule_excluded by exact Hex. lia.
    + rewrite recordModule_grouped by exact Hex.
      destruct (Js.get String.eqb (baseName m) (fold_left recordModule ms []))
        as [existing|] eqn:Hget.
      * pose proof (totalWeight_set_old String.eqb Entry.instances (baseName m)
                      {| Entry.instances := S (Entry.instances existing);
                         Entry.totalSize := Entry.totalSize existing + moduleSize m;
                         Entry.locations :=
                           Entry.locations existing ++ [moduleLocation m] |}
                      existing _ Hget) as H.
        simpl in H. lia.
      * rewrite (totalWeight_set_new String.eqb Entry.instances) by exact Hget.
        simpl. lia.
Qed.

(** The duplicate groups come in descending order of their total size,
    no two of them have the same name, and each has at least two
    instances, one location per instance, and a name that is neither
    empty nor contains "webpack" or "node_modules". *)
Theorem findDuplicateModules_shape (stats : Stats.t) :
  StronglySorted (descending DuplicateModule.totalSize) (findDuplicateModules stats)
  /\ NoDup (map DuplicateModule.name (findDuplicateModules stats))
  /\ forall d, In d (findDuplicateModules stats) ->
       (2 <= DuplicateModule.instances d)%nat
       /\ List.length (DuplicateModule.locations d) = DuplicateModule.instances d
       /\ DuplicateModule.name d <> ""
       /\ Js.includes (DuplicateModule.name d) "webpack" = false
       /\ Js.includes (DuplicateModule.name d) "node_modules" = false.
Proof.
  split; [|split].
  - unfold findDuplicateModules. apply sort_sorted.
  - unfold findDuplicateModules.
    eapply Permutation_NoDup.
    + apply Permutation_sym, Permutation_map, sort_perm.
    + rewrite map_map.
      rewrite (map_ext _ fst) by (intros [n e]; reflexivity).
      apply NoDup_keys_filter, buildModuleMap_spec.
  - intros d Hd. apply findDuplicateModules_In in Hd.
    destruct Hd as [e (He & Hmany & Hd)].
    unfold entryOf in He.
    destruct (groupOf (DuplicateModule.name d) (Js.orNil (Stats.modules stats)))
      as [|g0 g] eqn:Hgroup; [discriminate|].
    injection He as <-. rewrite Hd. simpl.
    split; [exact Hmany|]. split; [rewrite length_map; reflexivity|].
    assert (Hg0 : In g0 (groupOf (DuplicateModule.name d)
                           (Js.orNil (Stats.modules stats))))
      by (rewrite Hgroup; left; reflexivity).
    apply filter_In in Hg0. destruct Hg0 as [_ Hg0].
    apply andb_true_iff in Hg0. destruct Hg0 as [Hkept Hname].
    apply String.eqb_eq in Hname. apply negb_true_iff in Hkept.
    unfold excludedByBaseName in Hkept. rewrite Hname in Hkept.
    apply orb_false_iff in Hkept. destruct Hkept as [Hkept Hnode].
    apply orb_false_iff in Hkept. destruct Hkept as [Hempty Hwebpack].
    apply String.eqb_neq in Hempty. repeat split; assumption.
Qed.

Lemma list_sum_at_least {A : Type} (f : A -> nat) (k : nat) (l : list A) :
  (forall a, In a l -> (k <= f a)%nat) ->
  (k * List.length l <= list_sum (map f l))%nat.
Proof.
  induction l as [|a l IH]; simpl; intros H.
  - lia.
  - assert (k <= f a)%nat by (apply H; left; reflexivity).
    assert (k * List.length l <= list_sum (map f l))%nat
      by (apply IH; intros x Hx; apply H; right; exact Hx).
    lia.
Qed.

(** Every module is counted in at most one group: the instances of all
    the duplicate groups add up to no more than the number of modules, so
    there are at most half as many groups as modules. *)
Theorem findDuplicateModules_bounded (stats : Stats.t) :
  (list_sum (map DuplicateModule.instances (findDuplicateModules stats))
   <= List.length (Js.orNil (Stats.modules stats)))%nat
  /\ (2 * List.length (findDuplicateModules stats)
      <= List.length (Js.orNil (Stats.modules stats)))%nat.
Proof.
  assert (Hsum : (list_sum (map DuplicateModule.instances (findDuplicateModules stats))
                  <= List.length (Js.orNil (Stats.modules stats)))%nat).
  { unfold findDuplicateModules.
    erewrite list_sum_perm by (apply Permutation_map, sort_perm).
    rewrite map_map.
    rewrite (map_ext _ (fun kv => Entry.instances (snd kv)))
      by (intros [n e]; reflexivity).
    eapply Nat.le_trans; [apply (totalWeight_filter_le Entry.instances)|].
    rewrite buildModuleMap_instances. apply filter_length_le. }
  split; [exact Hsum|].
  eapply Nat.le_trans; [|exact Hsum].
  apply list_sum_at_least. intros d Hd.
  destruct (findDuplicateModules_only_groups stats d Hd) as [-> H]. exact H.
Qed.

(** ** The largest modules, the names and the bundle recommendations *)

Lemma sorted_firstn_skipn {A : Type} (R : A -> A -> Prop) (n : nat) (l : list A) :
  StronglySorted R l ->
  forall a b, In a (firstn n l) -> In b (skipn n l) -> R a b.
Proof.
  intros Hs. revert n. induction Hs as [|x l Hs IH Hx]; intros n a b Ha Hb.
  - destruct n; simpl in Ha; contradiction.
  - destruct n as [|n]; simpl in Ha, Hb; [contradiction|].
    destruct Ha as [<-|Ha].
    + apply (proj1 (Forall_forall _ _) Hx).
      rewrite <- (firstn_skipn n l). apply in_or_app. right. exact Hb.
    + apply (IH n); assumption.
Qed.

(** [findLargeModules] keeps the largest: with the modules it drops it
    makes up all the modules above the threshold, it keeps 20 of them
    or all when there are fewer, and no dropped module is larger than a
    kept one. *)
Theorem findLargeModules_keeps_largest (stats : Stats.t) :
  exists dropped,
    Permutation (findLargeModules stats ++ dropped) (largeModuleInfos stats)
    /\ List.length (findLargeModules stats)
       = Nat.min 20 (List.length (largeModuleInfos stats))
    /\ forall kept d, In kept (findLargeModules stats) -> In d dropped ->
         ModuleInfo.size d <= ModuleInfo.size kept.
Proof.
  unfold findLargeModules, Js.slice0. fold (largeModuleInfos stats).
  exists (skipn 20 (Js.sort (fun a b => ModuleInfo.size b - ModuleInfo.size a)
                      (largeModuleInfos stats))).
  split; [|split].
  - rewrite firstn_skipn. apply sort_perm.
  - rewrite length_firstn, sort_length. reflexivity.
  - intros kept d Hk Hd.
    apply (sorted_firstn_skipn (descending ModuleInfo.size) 20
             (Js.sort (fun a b => ModuleInfo.size b - ModuleInfo.size a)
                (largeModuleInfos stats))); [apply sort_sorted|exact Hk|exact Hd].
Qed.

Lemma orString_nonempty (x : option string) (d : string) :
  d <> "" -> Js.orString x d <> "".
Proof.
  intros Hd. unfold Js.orString. destruct x as [s|]; [|exact Hd].
  destruct (String.eqb_spec s ""); assumption.
Qed.

(** No summary is left without a name: every chunk summary is that of a
    chunk of the statistics and every large module that of one of its
    modules; a chunk that has neither a name nor an id, and a module
    without a name, are called "unknown". *)
Theorem summaries_are_named (stats : Stats.t) :
  Forall (fun c => ChunkInfo.name c <> "") (analyzeChunks stats)
  /\ Forall (fun m => ModuleInfo.name m <> "") (findLargeModules stats)
  /\ (forall chunk, Stats.names chunk = None -> Stats.id chunk = None ->
                    ChunkInfo.name (chunkInfo chunk) = "unknown")
  /\ (forall module,
        Stats.name module = None \/ Stats.name module = Some "" ->
        ModuleInfo.name (moduleInfo module) = "unknown")
  /\ (forall c, In c (analyzeChunks stats) ->
        exists chunk, In chunk (Stats.chunks stats) /\ c = chunkInfo chunk)
  /\ (forall m, In m (findLargeModules stats) ->
        exists module,
          In module (Js.orNil (Stats.modules stats)) /\ m = moduleInfo module).
Proof.
  assert (Hchunks : forall c, In c (analyzeChunks stats) ->
                      exists chunk, In chunk (Stats.chunks stats) /\ c = chunkInfo chunk).
  { intros c Hc. unfold analyzeChunks in Hc. apply sort_In in Hc.
    apply in_map_iff in Hc. destruct Hc as [chunk [<- Hin]].
    exists chunk. split; [exact Hin|reflexivity]. }
  assert (Hmodules : forall m, In m (findLargeModules stats) ->
                       exists module,
                         In module (Js.orNil (Stats.modules stats))
                         /\ m = moduleInfo module).
  { intros m Hm. unfold findLargeModules, Js.slice0 in Hm.
    assert (Hin : In m (Js.sort (fun a b => ModuleInfo.size b - ModuleInfo.size a)
                          (largeModuleInfos stats))).
    { rewrite <- (firstn_skipn 20). apply in_or_app. left. exact Hm. }
    apply sort_In in Hin. unfold largeModuleInfos in Hin.
    apply in_map_iff in Hin. destruct Hin as [module [<- Hin]].
    apply filter_In in Hin. exists module. split; [apply Hin|reflexivity]. }
  split; [|split; [|split; [|split; [|split]]]].
  - apply Forall_forall. intros c Hc.
    destruct (Hchunks c Hc) as [chunk [_ ->]].
    simpl. apply orString_nonempty, orString_nonempty. discriminate.
  - apply Forall_forall. intros m Hm.
    destruct (Hmodules m Hm) as [module [_ ->]].
    simpl. apply orString_nonempty. discriminate.
  - intros chunk Hn Hi. unfold chunkInfo. simpl. rewrite Hn, Hi. reflexivity.
  - intros module [Hnone|Hempty]; unfold moduleInfo; simpl;
      [rewrite Hnone|rewrite Hempty]; reflexivity.
  - exact Hchunks.
  - exact Hmodules.
Qed.

Lemma summaries_are_named_witness :
  ChunkInfo.name
    (chunkInfo (Stats.mkChunk None None (Some 10) None None None None)) = "unknown"
  /\ ModuleInfo.name
       (moduleInfo (Stats.mkModule None (Some 60000) (Some "/app/x.js") None None))
     = "unknown".
Proof.
  split.
  - exact (proj1 (proj2 (proj2 (summaries_are_named emptyStats)))
             (Stats.mkChunk None None (Some 10) None None None None) eq_refl eq_refl).
  - exact (proj1 (proj2 (proj2 (proj2 (summaries_are_named emptyStats))))
             (Stats.mkModule None (Some 60000) (Some "/app/x.js") None None)
             (or_introl eq_refl)).
Defined.

(** The bundle recommendations are the bundle-size one, when the chunks
    add up to more than 500,000, followed by warnings only: one per
    chunk above 250,000 and at most three each for the large modules
    and the duplicates; so there are at most seven more than chunks. *)
Theorem generateBundleRecommendations_order
    (chunks : list ChunkInfo.t) (largeModules : list ModuleInfo.t)
    (duplicates : list DuplicateModule.t) (metrics : Metrics.t) :
  exists warnings,
    generateBundleRecommendations chunks largeModules duplicates metrics
    = (if 500000 <? Js.sumBy ChunkInfo.size chunks
       then [bundleSizeRecommendation] else []) ++ warnings
    /\ Forall (fun r => Recommendation.severity r = warning) warnings
    /\ List.length warnings
       = (List.length (filter isLargeChunk chunks)
          + Nat.min 3 (List.length largeModules)
          + Nat.min 3 (List.length duplicates))%nat
    /\ (List.length
          (generateBundleRecommendations chunks largeModules duplicates metrics)
        <= 7 + List.length chunks)%nat.
Proof.
  unfold generateBundleRecommendations, Js.slice0.
  eexists. split; [reflexivity|]. split; [|split].
  - repeat (apply Forall_app; split);
      apply Forall_forall; intros r Hr;
      apply in_map_iff in Hr; destruct Hr as [x [<- _]]; reflexivity.
  - rewrite !length_app, !length_map, !length_firstn. unfold isLargeChunk.
    rewrite Nat.add_assoc. reflexivity.
  - rewrite !length_app, !length_map.
    pose proof (filter_length_le (fun chunk => 250000 <? ChunkInfo.size chunk) chunks).
    pose proof (firstn_le_length 3 largeModules).
    pose proof (firstn_le_length 3 duplicates).
    set (top := firstn 3 largeModules) in *.
    set (worst := firstn 3 duplicates) in *.
    destruct (500000 <? Js.sumBy ChunkInfo.size chunks); simpl; lia.
Qed.

(** ** The components of the re-render analysis *)

Lemma CauseType_eqb_eq (a b : CauseType) : CauseType_eqb a b = true <-> a = b.
Proof. destruct a, b; simpl; split; intros H; (reflexivity || discriminate). Qed.

Lemma keys_get {K V : Type} (eqb : K -> K -> bool)
    (eqb_eq : forall a b, eqb a b = true <-> a = b) (k : K) (m : list (K * V)) :
  In k (map fst m) <-> exists v, Js.get eqb k m = Some v.
Proof.
  split.
  - induction m as [|[k' v'] m IH]; simpl; [contradiction|].
    intros [->|Hin].
    + rewrite (proj2 (eqb_eq k k) eq_refl). exists v'. reflexivity.
    + destruct (eqb k k'); [exists v'; reflexivity|apply IH, Hin].
  - intros [v Hv]. apply (get_In eqb eqb_eq) in Hv.
    apply in_map_iff. exists (k, v). split; [reflexivity|exact Hv].
Qed.

Lemma analyzeRenderEvents_components (events : list RenderEvent.t) :
  RerenderAnalysis.components (analyzeRenderEvents events)
  = Js.sort (fun a b => renderCountZ b - renderCountZ a)
      (map entryInfo (groupEvents events)).
Proof.
  unfold analyzeRenderEvents. simpl.
  destruct (analyzeComponent_fold (groupEvents events)
              {| components := []; totalRerenders := 0; unnecessaryRerenders := 0 |})
    as (Hc & _ & _).
  rewrite Hc. reflexivity.
Qed.

(** The analysis has one component for each component name of the
    stream and no other, every component has rendered at least once, and
    the components come in descending order of their render count. *)
Theorem components_one_per_name (events : list RenderEvent.t) :
  StronglySorted (descending renderCountZ)
    (RerenderAnalysis.components (analyzeRenderEvents events))
  /\ NoDup (map ComponentRerenderInfo.name
              (RerenderAnalysis.components (analyzeRenderEvents events)))
  /\ (forall n,
        In n (map ComponentRerenderInfo.name
                (RerenderAnalysis.components (analyzeRenderEvents events)))
        <-> In n (map RenderEvent.componentName events))
  /\ Forall (fun c => (1 <= ComponentRerenderInfo.renderCount c)%nat)
       (RerenderAnalysis.components (analyzeRenderEvents events)).
Proof.
  assert (Hnames : Permutation
                     (map ComponentRerenderInfo.name
                        (RerenderAnalysis.components (analyzeRenderEvents events)))
                     (map fst (groupEvents events))).
  { rewrite analyzeRenderEvents_components.
    eapply perm_trans; [apply Permutation_map, sort_perm|].
    rewrite map_map. apply Permutation_refl. }
  destruct (groupEvents_spec events) as [Hnd Hget].
  split; [|split; [|split]].
  - rewrite analyzeRenderEvents_components. apply sort_sorted.
  - eapply Permutation_NoDup; [apply Permutation_sym, Hnames|exact Hnd].
  - intros n. split.
    + intros Hin. apply (Permutation_in _ Hnames) in Hin.
      apply (keys_get String.eqb String.eqb_eq) in Hin. destruct Hin as [g Hg].
      rewrite Hget in Hg. unfold eventsOf in Hg.
      destruct (filter (fun e => String.eqb (RenderEvent.componentName e) n) events)
        as [|e0 rest] eqn:Hf; [discriminate|].
      assert (He0 : In e0 (filter (fun e => String.eqb (RenderEvent.componentName e) n)
                             events)) by (rewrite Hf; left; reflexivity).
      apply filter_In in He0. destruct He0 as [He0 Hname].
      apply String.eqb_eq in Hname. subst n. apply in_map, He0.
    + intros Hin. apply in_map_iff in Hin. destruct Hin as [e [<- He]].
      apply (Permutation_in _ (Permutation_sym Hnames)).
      apply (keys_get String.eqb String.eqb_eq). rewrite Hget.
      assert (Hf : In e (eventsOf (RenderEvent.componentName e) events)).
      { apply filter_In. split; [exact He|apply String.eqb_refl]. }
      destruct (eventsOf (RenderEvent.componentName e) events) as [|e0 rest];
        [contradiction|].
      eexists. reflexivity.
  - apply Forall_forall. intros c Hc.
    apply components_of_groups in Hc. destruct Hc as [Hne ->]. simpl.
    destruct (eventsOf (ComponentRerenderInfo.name c) events); [contradiction|].
    simpl. lia.
Qed.

Lemma flaggedRenders_single (c : ComponentRerenderInfo.t) :
  (flaggedRenders [c] <= ComponentRerenderInfo.renderCount c)%nat.
Proof.
  unfold flaggedRenders. cbn [filter].
  destruct (ComponentRerenderInfo.isUnnecessary c); simpl; lia.
Qed.

Lemma flaggedRenders_le (entries : list (string * list RenderEvent.t)) :
  (flaggedRenders (map entryInfo entries)
   <= totalWeight (@List.length RenderEvent.t) entries)%nat.
Proof.
  induction entries as [|[n evs] entries IH].
  - unfold flaggedRenders, totalWeight. simpl. lia.
  - change (map entryInfo ((n, evs) :: entries))
      with ([entryInfo (n, evs)] ++ map entryInfo entries).
    rewrite flaggedRenders_app.
    pose proof (flaggedRenders_single (entryInfo (n, evs))) as H.
    change (ComponentRerenderInfo.renderCount (entryInfo (n, evs)))
      with (List.length evs) in H.
    change (totalWeight (@List.length RenderEvent.t) ((n, evs) :: entries))
      with (List.length evs + totalWeight (@List.length RenderEvent.t) entries)%nat.
    lia.
Qed.


(** The renders counted as unnecessary are among the renders counted. *)
Theorem unnecessaryRerenders_le_total (events : list RenderEvent.t) :
  (RerenderAnalysis.unnecessaryRerenders (analyzeRenderEvents events)
   <= RerenderAnalysis.totalRerenders (analyzeRenderEvents events))%nat.
Proof.
  unfold analyzeRenderEvents. simpl.
  destruct (analyzeComponent_fold (groupEvents events)
              {| components := []; totalRerenders := 0; unnecessaryRerenders := 0 |})
    as (_ & Ht & Hu).
  rewrite Ht, Hu. simpl. apply flaggedRenders_le.
Qed.

Lemma countCause_spec (renderEvents : list RenderEvent.t) :
  let causeCounts := fold_left countCause renderEvents [] in
  NoDup (map fst causeCounts)
  /\ (forall t, Js.get CauseType_eqb t causeCounts
                = countEntry (List.length (eventsWithCause t renderEvents)))
  /\ totalWeight (fun n : nat => n) causeCounts = List.length renderEvents.
Proof.
  cbv zeta.
  induction renderEvents as [|e evs (IHnd & IHget & IHsum)] using rev_ind.
  - repeat split. constructor.
  - rewrite fold_left_app. simpl fold_left.
    set (m := fold_left countCause evs []) in *.
    unfold countCause.
    split; [apply keys_set_NoDup; [apply CauseType_eqb_eq|exact IHnd]|]. split.
    + intros t. unfold eventsWithCause. rewrite filter_app, length_app. simpl.
      fold (eventsWithCause t evs).
      destruct (CauseType_eqb (RenderEvent.causeType e) t) eqn:Ht.
      * apply CauseType_eqb_eq in Ht. subst t.
        rewrite get_set_same by apply CauseType_eqb_eq.
        rewrite IHget.
        destruct (List.length (eventsWithCause (RenderEvent.causeType e) evs));
          simpl; [reflexivity|].
        rewrite !Nat.add_1_r. reflexivity.
      * rewrite get_set_other.
        -- rewrite IHget. simpl. rewrite Nat.add_0_r. reflexivity.
        -- apply CauseType_eqb_eq.
        -- intros ->. destruct (RenderEvent.causeType e); discriminate.
    + rewrite length_snoc.
      destruct (Js.get CauseType_eqb (RenderEvent.causeType e) m) as [n|] eqn:Hg.
      * pose proof (totalWeight_set_old CauseType_eqb (fun n : nat => n)
                      (RenderEvent.causeType e) (n + 1)%nat n m Hg) as H.
        simpl in H. lia.
      * rewrite (totalWeight_set_new CauseType_eqb (fun n : nat => n)) by exact Hg.
        lia.
Qed.

Lemma find_of_filter {A : Type} (p : A -> bool) (l : list A) :
  filter p l <> [] -> exists a, find p l = Some a.
Proof.
  induction l as [|x l IH]; simpl; intros H.
  - contradiction.
  - destruct (p x); [exists x; reflexivity|apply IH, H].
Qed.

Lemma orString_empty (s : string) : Js.orString (Some s) "" = s.
Proof.
  unfold Js.orString. destruct (String.eqb_spec s ""); [symmetry; assumption|reflexivity].
Qed.

(** The causes of a component account for its renders: no cause is
    listed twice, each is listed with the number of the component's events
    it has (at least one) and with the details of the first of them, and
    the counts add up to the render count. *)
Theorem causes_account_for_renders
    (events : list RenderEvent.t) (c : ComponentRerenderInfo.t) :
  In c (RerenderAnalysis.components (analyzeRenderEvents events)) ->
  NoDup (map RerenderCause.type (ComponentRerenderInfo.causes c))
  /\ list_sum (map RerenderCause.count (ComponentRerenderInfo.causes c))
     = ComponentRerenderInfo.renderCount c
  /\ forall cause, In cause (ComponentRerenderInfo.causes c) ->
       RerenderCause.count cause
       = List.length (eventsWithCause (RerenderCause.type cause)
                        (eventsOf (ComponentRerenderInfo.name c) events))
       /\ (1 <= RerenderCause.count cause)%nat
       /\ exists e,
            find (fun e => CauseType_eqb (RenderEvent.causeType e)
                             (RerenderCause.type cause))
                 (eventsOf (ComponentRerenderInfo.name c) events) = Some e
            /\ RerenderCause.details cause = RenderEvent.details e.
Proof.
  intros Hc. apply components_of_groups in Hc. destruct Hc as [_ Hc].
  set (group := eventsOf (ComponentRerenderInfo.name c) events) in *.
  rewrite Hc. simpl. clear Hc.
  destruct (countCause_spec group) as (Hnd & Hget & Hsum). cbv zeta in *.
  unfold analyzeCauses.
  split; [|split].
  - rewrite map_map.
    rewrite (map_ext _ fst) by (intros [t n]; reflexivity). exact Hnd.
  - rewrite map_map.
    rewrite (map_ext _ (fun kv => snd kv)) by (intros [t n]; reflexivity).
    exact Hsum.
  - intros cause Hin. apply in_map_iff in Hin. destruct Hin as [[t n] [<- Hin]].
    simpl.
    apply (In_get CauseType_eqb CauseType_eqb_eq) in Hin; [|exact Hnd].
    rewrite Hget in Hin.
    destruct (List.length (eventsWithCause t group)) as [|k] eqn:Hlen;
      [discriminate|].
    injection Hin as <-.
    split; [reflexivity|]. split; [lia|].
    destruct (find_of_filter (fun e => CauseType_eqb (RenderEvent.causeType e) t) group)
      as [e He].
    { fold (eventsWithCause t group). intros Hnil. rewrite Hnil in Hlen. discriminate. }
    exists e. split; [exact He|]. rewrite He. simpl. apply orString_empty.
Qed.

Lemma causes_account_for_renders_witness :
  exists c,
    In c (RerenderAnalysis.components (analyzeRenderEvents productListEvents))
    /\ list_sum (map RerenderCause.count (ComponentRerenderInfo.causes c)) = 15%nat.
Proof.
  assert (Hin : In (componentInfo "ProductList" (eventsOf "ProductList" productListEvents))
                  (RerenderAnalysis.components (analyzeRenderEvents productListEvents)))
    by (vm_compute; left; reflexivity).
  eexists. split; [exact Hin|].
  destruct (causes_account_for_renders productListEvents _ Hin) as (_ & Hsum & _).
  rewrite Hsum. reflexivity.
Defined.

(** ** The re-render recommendations *)

Lemma flat_map_length_le {A B : Type} (f : A -> list B) (k : nat) (l : list A) :
  (forall a, (List.length (f a) <= k)%nat) ->
  (List.length (flat_map f l) <= k * List.length l)%nat.
Proof.
  intros H. induction l as [|a l IH]; simpl.
  - lia.
  - rewrite length_app. specialize (H a). lia.
Qed.

Lemma filter_none {A : Type} (p : A -> bool) (l : list A) :
  (forall a, In a l -> p a = false) -> filter p l = [].
Proof.
  induction l as [|a l IH]; simpl; intros H.
  - reflexivity.
  - rewrite (H a) by (left; reflexivity).
    apply IH. intros x Hx. apply H. right. exact Hx.
Qed.

(** The re-render recommendations are at most ten warnings (two for
    each of five components) followed by at most three critical ones;
    there is none when no component has rendered more than 10 times or
    has an average above 16. *)
Theorem generateRerenderRecommendations_bounds (cs : list ComponentRerenderInfo.t) :
  (exists warnings criticals,
     generateRerenderRecommendations cs = warnings ++ criticals
     /\ Forall (fun r => Recommendation.severity r = warning) warnings
     /\ Forall (fun r => Recommendation.severity r = critical
                         /\ Recommendation.category r = "slow-renders") criticals
     /\ (List.length warnings <= 10)%nat
     /\ (List.length criticals <= 3)%nat)
  /\ ((forall c, In c cs ->
         (ComponentRerenderInfo.renderCount c <= 10)%nat
         /\ (16 <? ComponentRerenderInfo.avgRenderTime c)%float = false) ->
      generateRerenderRecommendations cs = []).
Proof.
  unfold generateRerenderRecommendations, Js.slice0. split.
  - eexists. eexists. split; [reflexivity|]. split; [|split; [|split]].
    + apply Forall_forall. intros r Hr. apply in_flat_map in Hr.
      destruct Hr as [c [_ Hr]].
      destruct (causeAbove5 props c), (causeAbove5 state c); simpl in Hr;
        repeat (destruct Hr as [<-|Hr]; [reflexivity|]); contradiction.
    + apply Forall_forall. intros r Hr. apply in_map_iff in Hr.
      destruct Hr as [c [<- _]]. split; reflexivity.
    + eapply Nat.le_trans.
      * apply (flat_map_length_le _ 2). intros c.
        destruct (causeAbove5 props c), (causeAbove5 state c); simpl; lia.
      * pose proof (firstn_le_length 5
                      (filter (fun c => (10 <? ComponentRerenderInfo.renderCount c)%nat) cs)).
        lia.
    + rewrite length_map. apply firstn_le_length.
  - intros Hquiet.
    rewrite (filter_none (fun c => (10 <? ComponentRerenderInfo.renderCount c)%nat)).
    + rewrite (filter_none
                 (fun c => (16 <? ComponentRerenderInfo.avgRenderTime c)%float)).
      * reflexivity.
      * intros c Hc. destruct (Hquiet c Hc) as [_ Havg]. exact Havg.
    + intros c Hc. destruct (Hquiet c Hc) as [Hcount _].
      apply Nat.ltb_ge. exact Hcount.
Qed.

(** ** The memory rules *)

Lemma fold_add_from (l : list Z) (z : Z) :
  fold_left Z.add l z = z + fold_left Z.add l 0.
Proof.
  revert z. induction l as [|x l IH]; intros z; simpl.
  - lia.
  - rewrite (IH (z + x)), (IH x). lia.
Qed.

(** The deltas telescope: their sum is the growth from the first to the
    last snapshot, and there is one delta less than snapshots. *)
Lemma growthRates_sum (first : MemorySnapshot.t) (rest : list MemorySnapshot.t) :
  fold_left Z.add (growthRates (first :: rest)) 0
  = finalHeap first rest - MemorySnapshot.heapUsed first
  /\ List.length (growthRates (first :: rest)) = List.length rest.
Proof.
  unfold finalHeap. revert first.
  induction rest as [|next rest IH]; intros first.
  - simpl. split; [lia|reflexivity].
  - destruct (IH next) as [Hsum Hlen].
    change (growthRates (first :: next :: rest))
      with ((MemorySnapshot.heapUsed next - MemorySnapshot.heapUsed first)
              :: growthRates (next :: rest)).
    split.
    + cbn [fold_left]. rewrite fold_add_from, Hsum.
      assert (Hlast : last (next :: rest) first = last rest next).
      { destruct rest as [|t rest]; [reflexivity|].
        change (last (next :: t :: rest) first) with (last (t :: rest) first).
        apply last_default. }
      rewrite Hlast. lia.
    + cbn [List.length]. rewrite Hlen. reflexivity.
Qed.

Lemma Qltb_quotient (k s : Z) (m : nat) :
  (0 < m)%nat ->
  Js.Qltb (inject_Z k) (inject_Z s / inject_Z (Z.of_nat m)) = true
  <-> k * Z.of_nat m < s.
Proof.
  intros Hm. rewrite Qltb_lt.
  assert (Hpos : 0 < Z.of_nat m) by lia.
  destruct (Z.of_nat m) as [|p|p]; try lia.
  unfold Qlt, Qdiv, Qmult, Qinv, inject_Z. cbn [Qnum Qden]. lia.
Qed.

(** On three snapshots or more, only the first and the last decide the
    consistent-growth rule: the leak is reported exactly when the heap
    grew by more than 1,048,576 bytes per interval between them. *)
Theorem consistent_growth_by_endpoints
    (first : MemorySnapshot.t) (rest : list MemorySnapshot.t) :
  (2 <= List.length rest)%nat ->
  exists leaks,
    detectMemoryLeaks (first :: rest) = Js.Returns leaks
    /\ (hasLeak "consistent-growth" leaks = true
        <-> 1048576 * Z.of_nat (List.length rest)
            < finalHeap first rest - MemorySnapshot.heapUsed first).
Proof.
  intros Hlen. rewrite detectMemoryLeaks_nonempty. cbv zeta.
  eexists. split; [reflexivity|].
  destruct (growthRates_sum first rest) as [Hsum Hcount].
  rewrite <- (Qltb_quotient 1048576 _ (List.length rest)) by lia.
  rewrite <- Hsum, <- Hcount. fold (avgGrowth (first :: rest)).
  change (inject_Z 1048576) with (1048576%Q).
  replace (3 <=? List.length (first :: rest))%nat with true
    by (symmetry; apply Nat.leb_le; simpl; lia).
  unfold hasLeak.
  destruct (Js.Qltb 1048576 (avgGrowth (first :: rest)));
    match goal with
    | |- context [if ?c then [largeIncreaseLeak ?i] else []] => destruct c
    end; simpl; split; intros H; (reflexivity || discriminate).
Qed.

Lemma consistent_growth_by_endpoints_witness :
  (2 <= List.length (tl steadyGrowth))%nat
  /\ exists leaks,
       detectMemoryLeaks steadyGrowth = Js.Returns leaks
       /\ hasLeak "consistent-growth" leaks = true.
Proof.
  assert (Hlen : (2 <= List.length (tl steadyGrowth))%nat)
    by (simpl; lia).
  split; [exact Hlen|].
  destruct (consistent_growth_by_endpoints (snapshotAt (10 * MiB))
              (tl steadyGrowth) Hlen)
    as [leaks [Hrun Hiff]].
  exists leaks. split; [exact Hrun|]. apply Hiff. vm_compute. reflexivity.
Defined.

Lemma increase_above_half (memoryIncrease initialMemory : Z) :
  0 <= initialMemory ->
  Js.gt (Js.scale (Js.div memoryIncrease initialMemory) 100) 50 = true
  <-> initialMemory < 2 * memoryIncrease.
Proof.
  intros Hinit. unfold Js.div.
  destruct (Z.eqb_spec initialMemory 0) as [->|Hne].
  - destruct (Z.ltb_spec 0 memoryIncrease) as [Hup|Hdown]; cbn [Js.scale Js.gt].
    + split; [intros _; lia|reflexivity].
    + destruct (memoryIncrease <? 0); cbn [Js.scale Js.gt];
        split; intros H; (discriminate H || lia).
  - cbn [Js.scale Js.gt]. rewrite Qltb_lt.
    destruct initialMemory as [|p|p]; try lia.
    unfold Qlt, Qdiv, Qmult, Qinv, inject_Z. cbn [Qnum Qden]. lia.
Qed.

(** With a heap that is not negative at the start, the large-increase
    leak is reported exactly when the heap grew by more than half of
    its initial size (from an empty heap: when it grew at all); it is a
    warning whose retained size is the growth. *)
Theorem large_increase_rule (first : MemorySnapshot.t) (rest : list MemorySnapshot.t) :
  0 <= MemorySnapshot.heapUsed first ->
  exists leaks,
    detectMemoryLeaks (first :: rest) = Js.Returns leaks
    /\ (hasLeak "large-increase" leaks = true
        <-> MemorySnapshot.heapUsed first
            < 2 * (finalHeap first rest - MemorySnapshot.heapUsed first))
    /\ forall leak, In leak leaks -> MemoryLeak.type leak = "large-increase" ->
         MemoryLeak.severity leak = warning
         /\ MemoryLeak.retainedSize leak
            = finalHeap first rest - MemorySnapshot.heapUsed first.
Proof.
  intros Hinit. rewrite detectMemoryLeaks_nonempty. cbv zeta.
  eexists. split; [reflexivity|].
  rewrite <- (increase_above_half _ _ Hinit). fold (finalHeap first rest).
  unfold hasLeak. split.
  - destruct (3 <=? List.length (first :: rest))%nat;
      [destruct (Js.Qltb 1048576 (avgGrowth (first :: rest)))|];
      match goal with
      | |- context [if ?c then [largeIncreaseLeak ?i] else []] => destruct c
      end; simpl; split; intros H; (reflexivity || discriminate).
  - intros leak Hin Htype.
    destruct (3 <=? List.length (first :: rest))%nat;
      [destruct (Js.Qltb 1048576 (avgGrowth (first :: rest)))|];
      match type of Hin with
      | context [if ?c then [largeIncreaseLeak ?i] else []] => destruct c
      end; simpl in Hin;
      repeat (destruct Hin as [<-|Hin]; [try discriminate Htype|]);
      try contradiction; split; reflexivity.
Qed.

Lemma large_increase_rule_witness :
  0 <= MemorySnapshot.heapUsed (snapshotAt (10 * MiB))
  /\ exists leaks,
       detectMemoryLeaks steadyGrowth = Js.Returns leaks
       /\ hasLeak "large-increase" leaks = true.
Proof.
  assert (Hinit : 0 <= MemorySnapshot.heapUsed (snapshotAt (10 * MiB)))
    by (vm_compute; discriminate).
  split; [exact Hinit|].
  destruct (large_increase_rule (snapshotAt (10 * MiB))
              (tl steadyGrowth) Hinit)
    as [leaks (Hrun & Hiff & _)].
  exists leaks. split; [exact Hrun|]. apply Hiff. vm_compute. reflexivity.
Defined.

(** ** The memory analysis as a whole *)

Lemma analyzeSnapshots_parts
    (snapshots : list MemorySnapshot.t) (analysis : MemoryAnalysis.t) :
  analyzeSnapshots snapshots = Js.Returns analysis ->
  detectMemoryLeaks snapshots = Js.Returns (MemoryAnalysis.leaks analysis)
  /\ generateMemoryRecommendations snapshots (MemoryAnalysis.leaks analysis)
     = Js.Returns (MemoryAnalysis.recommendations analysis)
  /\ Js.field MemorySnapshot.heapUsed
       (Js.index snapshots (Z.of_nat (List.length snapshots) - 1))
     = Js.Returns (MemoryAnalysis.heapSize analysis)
  /\ calculateRetainedSize snapshots = Js.Returns (MemoryAnalysis.retainedSize analysis)
  /\ MemoryAnalysis.snapshots analysis = snapshots.
Proof.
  unfold analyzeSnapshots, Js.bind.
  destruct (detectMemoryLeaks snapshots) as [leaks|] eqn:Hleaks; [|discriminate].
  destruct (generateMemoryRecommendations snapshots leaks) as [recs|] eqn:Hrecs;
    [|discriminate].
  destruct (Js.field MemorySnapshot.heapUsed
              (Js.index snapshots (Z.of_nat (List.length snapshots) - 1)))
    as [heap|] eqn:Hheap; [|discriminate].
  destruct (calculateRetainedSize snapshots) as [size|] eqn:Hsize; [|discriminate].
  intros H. injection H as <-. simpl.
  repeat split; assumption || reflexivity.
Qed.

Lemma generateMemoryRecommendations_value
    (first : MemorySnapshot.t) (rest : list MemorySnapshot.t) (leaks : list MemoryLeak.t) :
  generateMemoryRecommendations (first :: rest) leaks
  = Js.Returns
      (map memoryLeakRecommendation
         (filter (fun l => Severity_eqb (MemoryLeak.severity l) critical) leaks)
       ++ match find (fun l => String.eqb (MemoryLeak.type l) "detached-dom") leaks with
          | Some _ => [detachedDomRecommendation]
          | None => []
          end
       ++ match find (fun l => String.eqb (MemoryLeak.type l) "event-listeners") leaks with
          | Some _ => [eventListenersRecommendation]
          | None => []
          end
       ++ (if 52428800 <? finalHeap first rest then [highMemoryRecommendation] else [])).
Proof.
  unfold generateMemoryRecommendations. rewrite index_last. reflexivity.
Qed.

(** The size figures of the analysis: the heap size is the last
    [heapUsed], the retained size is the growth from the first to the
    last snapshot or 0 when the heap shrank, and the high-memory warning
    is given exactly when the heap size is above 52,428,800 bytes. *)
Theorem memory_analysis_sizes
    (first : MemorySnapshot.t) (rest : list MemorySnapshot.t)
    (analysis : MemoryAnalysis.t) :
  analyzeSnapshots (first :: rest) = Js.Returns analysis ->
  MemoryAnalysis.snapshots analysis = first :: rest
  /\ MemoryAnalysis.heapSize analysis = finalHeap first rest
  /\ MemoryAnalysis.retainedSize analysis
     = Z.max 0 (finalHeap first rest - MemorySnapshot.heapUsed first)
  /\ (In highMemoryRecommendation (MemoryAnalysis.recommendations analysis)
      <-> 52428800 < MemoryAnalysis.heapSize analysis).
Proof.
  intros Hrun. apply analyzeSnapshots_parts in Hrun.
  destruct Hrun as (_ & Hrecs & Hheap & Hsize & Hsnap).
  rewrite index_last in Hheap. injection Hheap as Hheap.
  fold (finalHeap first rest) in Hheap.
  split; [exact Hsnap|]. split; [symmetry; exact Hheap|]. split.
  - unfold calculateRetainedSize in Hsize.
    destruct rest as [|next rest].
    + simpl in Hsize. injection Hsize as <-. unfold finalHeap. simpl. lia.
    + replace (List.length (first :: next :: rest) <? 2)%nat with false in Hsize
        by (symmetry; apply Nat.ltb_ge; simpl; lia).
      rewrite index_first, index_last in Hsize. simpl in Hsize.
      injection Hsize as <-. reflexivity.
  - rewrite generateMemoryRecommendations_value in Hrecs. injection Hrecs as <-.
    rewrite <- Hheap.
    destruct (Z.ltb_spec 52428800 (finalHeap first rest)) as [Hhigh|Hlow].
    + split; [intros _; exact Hhigh|]. intros _.
      apply in_or_app. right. apply in_or_app. right. apply in_or_app. right.
      left. reflexivity.
    + split; [|lia]. intros Hin. exfalso.
      rewrite app_nil_r in Hin.
      apply in_app_or in Hin. destruct Hin as [Hin|Hin].
      * apply in_map_iff in Hin. destruct Hin as [l [Hl _]]. discriminate Hl.
      * apply in_app_or in Hin.
        destruct Hin as [Hin|Hin];
          [destruct (find (fun l => String.eqb (MemoryLeak.type l) "detached-dom")
                       (MemoryAnalysis.leaks analysis))
          |destruct (find (fun l => String.eqb (MemoryLeak.type l) "event-listeners")
                       (MemoryAnalysis.leaks analysis))];
          simpl in Hin; try contradiction;
          destruct Hin as [Hin|[]]; discriminate Hin.
Qed.

Lemma memory_analysis_sizes_witness :
  exists analysis,
    analyzeSnapshots steadyGrowth = Js.Returns analysis
    /\ MemoryAnalysis.heapSize analysis = 16 * MiB
    /\ MemoryAnalysis.retainedSize analysis = 6 * MiB.
Proof.
  eexists. split; [vm_compute; reflexivity|].
  match goal with
  | |- MemoryAnalysis.heapSize ?a = _ /\ _ =>
      assert (Hrun : analyzeSnapshots (snapshotAt (10 * MiB) :: tl steadyGrowth)
                     = Js.Returns a) by (vm_compute; reflexivity);
      destruct (memory_analysis_sizes _ _ _ Hrun) as (_ & Hheap & Hsize & _)
  end.
  rewrite Hheap, Hsize. split; reflexivity.
Defined.

(** Whatever the snapshots show, the analysis of a non-empty sequence
    reports between two and four leaks, the last two being the fixed
    detached-DOM and event-listener findings, and between two and four
    recommendations, among them those for the two fixed findings. *)
Theorem memory_analysis_always_reports
    (first : MemorySnapshot.t) (rest : list MemorySnapshot.t) :
  exists analysis detected,
    analyzeSnapshots (first :: rest) = Js.Returns analysis
    /\ MemoryAnalysis.leaks analysis = detected ++ fixedFindings
    /\ (List.length detected <= 2)%nat
    /\ hasLeak "detached-dom" (MemoryAnalysis.leaks analysis) = true
    /\ hasLeak "event-listeners" (MemoryAnalysis.leaks analysis) = true
    /\ In detachedDomRecommendation (MemoryAnalysis.recommendations analysis)
    /\ In eventListenersRecommendation (MemoryAnalysis.recommendations analysis)
    /\ (2 <= List.length (MemoryAnalysis.recommendations analysis) <= 4)%nat.
Proof.
  destruct (analyzeSnapshots_nonempty first rest) as [analysis Hrun].
  exists analysis.
  destruct (analyzeSnapshots_parts _ _ Hrun) as (Hleaks & Hrecs & _).
  rewrite detectMemoryLeaks_nonempty in Hleaks. cbv zeta in Hleaks.
  match type of Hleaks with
  | Js.Returns (?g ++ ?i ++ _) = _ =>
      set (growth := g) in Hleaks; set (increase := i) in Hleaks
  end.
  assert (Hg : growth = [] \/ growth = [consistentGrowthLeak (first :: rest)]).
  { subst growth. destruct (3 <=? List.length (first :: rest))%nat;
      [destruct (Js.Qltb 1048576 (avgGrowth (first :: rest)))|]; auto. }
  assert (Hi : increase = [] \/ exists i, increase = [largeIncreaseLeak i]).
  { subst increase.
    match goal with |- context [if ?c then _ else _] => destruct c end; eauto. }
  clearbody growth increase.
  injection Hleaks as Hleaks.
  rewrite generateMemoryRecommendations_value in Hrecs. injection Hrecs as Hrecs.
  eexists. split; [exact Hrun|].
  rewrite <- Hrecs, <- Hleaks. clear Hrun Hrecs Hleaks.
  split; [rewrite app_assoc; reflexivity|].
  unfold hasLeak.
  destruct Hg as [->| ->], Hi as [->|[i ->]];
    destruct (52428800 <? finalHeap first rest);
    cbn; repeat split; try lia; auto 10.
Qed.

Lemma no_increase (initialMemory : Z) :
  Js.gt (Js.scale (Js.div 0 initialMemory) 100) 50 = false.
Proof.
  unfold Js.div. destruct initialMemory as [|p|p]; reflexivity.
Qed.

(** Fewer than three snapshots never give a consistent-growth leak,
    however fast the heap grew, so every recommendation is a warning;
    a single snapshot gives the two fixed findings only and a retained
    size of 0. *)
Theorem short_sequences_never_critical
    (first : MemorySnapshot.t) (rest : list MemorySnapshot.t) :
  (List.length rest < 2)%nat ->
  exists analysis,
    analyzeSnapshots (first :: rest) = Js.Returns analysis
    /\ hasLeak "consistent-growth" (MemoryAnalysis.leaks analysis) = false
    /\ Forall (fun r => Recommendation.severity r = warning)
         (MemoryAnalysis.recommendations analysis)
    /\ (rest = [] ->
        MemoryAnalysis.leaks analysis = fixedFindings
        /\ MemoryAnalysis.retainedSize analysis = 0).
Proof.
  intros Hshort.
  destruct (analyzeSnapshots_nonempty first rest) as [analysis Hrun].
  exists analysis. split; [exact Hrun|].
  destruct (analyzeSnapshots_parts _ _ Hrun) as (Hleaks & Hrecs & _ & Hsize & _).
  rewrite detectMemoryLeaks_nonempty in Hleaks. cbv zeta in Hleaks.
  replace (3 <=? List.length (first :: rest))%nat with false in Hleaks
    by (symmetry; apply Nat.leb_gt; simpl; lia).
  rewrite generateMemoryRecommendations_value in Hrecs. injection Hrecs as Hrecs.
  injection Hleaks as Hleaks.
  split; [|split].
  - rewrite <- Hleaks. unfold hasLeak.
    match goal with |- context [if ?c then _ else _] => destruct c end; reflexivity.
  - rewrite <- Hrecs, <- Hleaks.
    match goal with |- context [if ?c then [largeIncreaseLeak _] else _] => destruct c end;
      destruct (52428800 <? finalHeap first rest); cbn;
      repeat constructor.
  - intros ->. split.
    + rewrite <- Hleaks. cbn [last]. rewrite Z.sub_diag, no_increase. reflexivity.
    + simpl in Hsize. injection Hsize as <-. reflexivity.
Qed.

Lemma short_sequences_never_critical_witness :
  (List.length [snapshotAt (90 * MiB)] < 2)%nat
  /\ exists analysis,
       analyzeSnapshots [snapshotAt (10 * MiB); snapshotAt (90 * MiB)]
       = Js.Returns analysis
       /\ hasLeak "consistent-growth" (MemoryAnalysis.leaks analysis) = false.
Proof.
  assert (Hshort : (List.length [snapshotAt (90 * MiB)] < 2)%nat) by (simpl; lia).
  split; [exact Hshort|].
  destruct (short_sequences_never_critical (snapshotAt (10 * MiB))
              [snapshotAt (90 * MiB)] Hshort) as [analysis (Hrun & Hnone & _)].
  exists analysis. split; [exact Hrun|exact Hnone].
Defined.

(** Once the page is loaded the memory analysis cannot fail: five
    snapshots are collected whatever the page reports, their [external]
    and [arrayBuffers] are 0, and the heap size of the analysis is the
    heap read at the fifth collection. *)
Theorem live_memory_analysis_returns (page : nat -> PageReading.t) :
  exists analysis,
    analyzeLoadedPage page = Js.Returns analysis
    /\ MemoryAnalysis.snapshots analysis = map (fun i => collectMemorySnapshot (page i))
                                             [0; 1; 2; 3; 4]%nat
    /\ Forall (fun s => MemorySnapshot.external s = 0
                        /\ MemorySnapshot.arrayBuffers s = 0)
         (MemoryAnalysis.snapshots analysis)
    /\ MemoryAnalysis.heapSize analysis
       = MemorySnapshot.heapUsed (collectMemorySnapshot (page 4%nat))
    /\ (2 <= List.length (MemoryAnalysis.leaks analysis))%nat.
Proof.
  unfold analyzeLoadedPage.
  change (collectSnapshots page)
    with (collectMemorySnapshot (page 0%nat)
            :: map (fun i => collectMemorySnapshot (page i)) [1; 2; 3; 4]%nat).
  destruct (analyzeSnapshots_nonempty (collectMemorySnapshot (page 0%nat))
              (map (fun i => collectMemorySnapshot (page i)) [1; 2; 3; 4]%nat))
    as [analysis Hrun].
  exists analysis. split; [exact Hrun|].
  destruct (analyzeSnapshots_parts _ _ Hrun) as (Hleaks & _ & Hheap & _ & Hsnap).
  split; [exact Hsnap|]. split; [|split].
  - rewrite Hsnap. repeat constructor.
  - rewrite index_last in Hheap. injection Hheap as <-. reflexivity.
  - rewrite detectMemoryLeaks_nonempty in Hleaks. cbv zeta in Hleaks.
    injection Hleaks as <-. rewrite !length_app. simpl. lia.
Qed.

(** ** The summary of a report *)

Lemma countSeverity_app (s : Severity) (l1 l2 : list Recommendation.t) :
  countSeverity s (l1 ++ l2) = countSeverity s l1 + countSeverity s l2.
Proof. unfold countSeverity. rewrite filter_app, length_app. lia. Qed.

Lemma countSeverity_nonneg (s : Severity) (l : list Recommendation.t) :
  0 <= countSeverity s l.
Proof. unfold countSeverity. lia. Qed.

Lemma countSeverity_none (s : Severity) (l : list Recommendation.t) :
  Forall (fun r => Severity_eqb (Recommendation.severity r) s = false) l ->
  countSeverity s l = 0.
Proof.
  unfold countSeverity. intros H.
  rewrite filter_none; [reflexivity|].
  intros r Hr. apply (proj1 (Forall_forall _ _) H), Hr.
Qed.

Lemma countSeverity_le_length (s : Severity) (l : list Recommendation.t) :
  countSeverity s l <= Z.of_nat (List.length l).
Proof.
  unfold countSeverity.
  pose proof (filter_length_le (fun r => Severity_eqb (Recommendation.severity r) s) l).
  lia.
Qed.

Lemma countSeverity_total (l : list Recommendation.t) :
  Z.of_nat (List.length l)
  = countSeverity critical l + countSeverity warning l + countSeverity info l.
Proof.
  unfold countSeverity. induction l as [|r l IH].
  - reflexivity.
  - cbn [filter]. destruct (Recommendation.severity r);
      cbn [Severity_eqb List.length]; lia.
Qed.

(** The summary accounts for every recommendation: the total is the
    critical ones, the warnings and the informational ones together,
    there is one suggestion per issue, and the summary stored before has
    no influence on the new one. *)
Theorem summary_accounts_for_all (results : AnalysisResult.t) :
  let summary := AnalysisResult.summary (calculateSummary results) in
  Summary.totalIssues summary
  = Summary.criticalIssues summary + Summary.warnings summary
    + countSeverity info (allRecommendations results)
  /\ 0 <= Summary.criticalIssues summary
  /\ 0 <= Summary.warnings summary
  /\ Summary.criticalIssues summary + Summary.warnings summary
     <= Summary.totalIssues summary
  /\ Z.of_nat (List.length (Summary.suggestions summary)) = Summary.totalIssues summary
  /\ forall other,
       AnalysisResult.analyses other = AnalysisResult.analyses results ->
       AnalysisResult.summary (calculateSummary other) = summary.
Proof.
  cbv zeta. unfold calculateSummary. simpl AnalysisResult.summary.
  destruct (tally_fold (allRecommendations results)
              {| Summary.totalIssues := 0; Summary.criticalIssues := 0;
                 Summary.warnings := 0; Summary.suggestions := [] |})
    as (Ht & Hc & Hw & Hs).
  cbv zeta in *. simpl in Ht, Hc, Hw, Hs. rewrite Ht, Hc, Hw, Hs.
  pose proof (countSeverity_total (allRecommendations results)).
  pose proof (countSeverity_nonneg critical (allRecommendations results)).
  pose proof (countSeverity_nonneg warning (allRecommendations results)).
  pose proof (countSeverity_nonneg info (allRecommendations results)).
  rewrite length_map.
  repeat split; try lia.
  intros other Hsame. unfold allRecommendations. rewrite Hsame. reflexivity.
Qed.

Lemma countSeverity_warnings {A : Type} (f : A -> Recommendation.t) (l : list A) :
  (forall a, Recommendation.severity (f a) = warning) ->
  countSeverity critical (map f l) = 0.
Proof.
  intros H. apply countSeverity_none, Forall_forall.
  intros r Hr. apply in_map_iff in Hr. destruct Hr as [a [<- _]].
  rewrite H. reflexivity.
Qed.

Lemma bundle_critical_le (stats : Stats.t) :
  countSeverity critical (BundleAnalysis.recommendations (analyzeWebpackStats stats)) <= 1.
Proof.
  unfold analyzeWebpackStats. simpl. unfold generateBundleRecommendations.
  rewrite !countSeverity_app.
  rewrite !countSeverity_warnings by reflexivity.
  destruct (500000 <? Js.sumBy ChunkInfo.size (analyzeChunks stats)); cbn; lia.
Qed.

Lemma rerender_critical_le (events : list RenderEvent.t) :
  countSeverity critical (RerenderAnalysis.recommendations (analyzeRenderEvents events))
  <= 3.
Proof.
  unfold analyzeRenderEvents. simpl. unfold generateRerenderRecommendations.
  rewrite countSeverity_app.
  rewrite (countSeverity_none critical (flat_map _ _)).
  - eapply Z.le_trans; [apply countSeverity_le_length|].
    rewrite length_map. unfold Js.slice0.
    match goal with
    | |- Z.of_nat (List.length (firstn 3 ?l)) <= 3 =>
        pose proof (firstn_le_length 3 l); lia
    end.
  - apply Forall_forall. intros r Hr. apply in_flat_map in Hr.
    destruct Hr as [c [_ Hr]].
    destruct (causeAbove5 props c), (causeAbove5 state c); simpl in Hr;
      repeat (destruct Hr as [<-|Hr]; [reflexivity|]); contradiction.
Qed.

Lemma memory_critical_le
    (snapshots : list MemorySnapshot.t) (analysis : MemoryAnalysis.t) :
  analyzeSnapshots snapshots = Js.Returns analysis ->
  countSeverity critical (MemoryAnalysis.recommendations analysis) <= 1.
Proof.
  intros Hrun. destruct snapshots as [|first rest]; [discriminate Hrun|].
  destruct (analyzeSnapshots_parts _ _ Hrun) as (Hleaks & Hrecs & _).
  rewrite detectMemoryLeaks_nonempty in Hleaks. cbv zeta in Hleaks.
  match type of Hleaks with
  | Js.Returns (?g ++ ?i ++ _) = _ =>
      set (growth := g) in Hleaks; set (increase := i) in Hleaks
  end.
  assert (Hg : growth = [] \/ growth = [consistentGrowthLeak (first :: rest)]).
  { subst growth. destruct (3 <=? List.length (first :: rest))%nat;
      [destruct (Js.Qltb 1048576 (avgGrowth (first :: rest)))|]; auto. }
  assert (Hi : increase = [] \/ exists i, increase = [largeIncreaseLeak i]).
  { subst increase.
    match goal with |- context [if ?c then _ else _] => destruct c end; eauto. }
  clearbody growth increase.
  injection Hleaks as Hleaks.
  rewrite generateMemoryRecommendations_value in Hrecs. injection Hrecs as Hrecs.
  rewrite <- Hrecs, <- Hleaks.
  destruct Hg as [->| ->], Hi as [->|[i ->]];
    destruct (52428800 <? finalHeap first rest); cbn; lia.
Qed.

(** However many findings there are, a report built from the analyzers
    shows at most five critical issues: one for the bundle size, three
    for slow components and one for a growing heap. *)
Theorem report_critical_bound (results : AnalysisResult.t) :
  producedByAnalyzers results ->
  0 <= Summary.criticalIssues (AnalysisResult.summary (calculateSummary results)) <= 5.
Proof.
  intros (Hb & Hr & Hm).
  unfold calculateSummary. simpl AnalysisResult.summary.
  destruct (tally_fold (allRecommendations results)
              {| Summary.totalIssues := 0; Summary.criticalIssues := 0;
                 Summary.warnings := 0; Summary.suggestions := [] |})
    as (_ & Hc & _).
  cbv zeta in Hc. simpl in Hc. rewrite Hc. clear Hc.
  unfold allRecommendations, recommendationsOf. rewrite !countSeverity_app.
  assert (Hbundle : 0 <= countSeverity critical
                           (Js.orNil (option_map BundleAnalysis.recommendations
                                        (Analyses.bundle (AnalysisResult.analyses results))))
                    <= 1).
  { split; [apply countSeverity_nonneg|].
    destruct Hb as [->|[stats ->]]; [cbn; lia|apply bundle_critical_le]. }
  assert (Hrender : 0 <= countSeverity critical
                           (Js.orNil (option_map RerenderAnalysis.recommendations
                                        (Analyses.rerenders (AnalysisResult.analyses results))))
                    <= 3).
  { split; [apply countSeverity_nonneg|].
    destruct Hr as [->|[events ->]]; [cbn; lia|apply rerender_critical_le]. }
  assert (Hmemory : 0 <= countSeverity critical
                           (Js.orNil (option_map MemoryAnalysis.recommendations
                                        (Analyses.memory (AnalysisResult.analyses results))))
                    <= 1).
  { split; [apply countSeverity_nonneg|].
    destruct Hm as [->|[snapshots [analysis [Hrun ->]]]];
      [cbn; lia|apply (memory_critical_le snapshots), Hrun]. }
  lia.
Qed.

Lemma report_critical_bound_witness :
  producedByAnalyzers sampleResults
  /\ 0 <= Summary.criticalIssues (AnalysisResult.summary (calculateSummary sampleResults))
     <= 5.
Proof.
  assert (Hfrom : producedByAnalyzers sampleResults).
  { split; [right; exists assetHeavyBuild; reflexivity|].
    split; [right; exists productListEvents; reflexivity|left; reflexivity]. }
  split; [exact Hfrom|exact (report_critical_bound sampleResults Hfrom)].
Defined.

(** ** Two consequences worth knowing *)

Lemma floor_projection (growth : Z) (intervals : nat) :
  (0 < intervals)%nat ->
  1048576 * Z.of_nat intervals < growth ->
  growth + 1048576
  <= Qfloor (inject_Z growth / inject_Z (Z.of_nat intervals)
             * inject_Z (Z.of_nat (S intervals)))%Q.
Proof.
  intros Hpos Hfast.
  rewrite <- (Qfloor_Z (growth + 1048576)). apply Qfloor_resp_le.
  rewrite Nat2Z.inj_succ.
  assert (Hm : 0 < Z.of_nat intervals) by lia.
  destruct (Z.of_nat intervals) as [|p|p]; try lia.
  unfold Qle, Qdiv, Qmult, Qinv, inject_Z. cbn [Qnum Qden]. nia.
Qed.

(** The retained size that a consistent-growth leak reports is a
    projection beyond the last snapshot: it exceeds the growth that was
    measured between the first and the last snapshot by more than
    1,048,576 bytes. *)
Theorem consistent_growth_projection
    (first : MemorySnapshot.t) (rest : list MemorySnapshot.t)
    (leaks : list MemoryLeak.t) (leak : MemoryLeak.t) :
  detectMemoryLeaks (first :: rest) = Js.Returns leaks ->
  In leak leaks ->
  MemoryLeak.type leak = "consistent-growth" ->
  (finalHeap first rest - MemorySnapshot.heapUsed first) + 1048576
  <= MemoryLeak.retainedSize leak.
Proof.
  intros Hrun Hin Htype.
  rewrite detectMemoryLeaks_nonempty in Hrun. cbv zeta in Hrun.
  match type of Hrun with
  | Js.Returns (?g ++ ?o) = _ => set (growth := g) in Hrun; set (others := o) in Hrun
  end.
  assert (Hg : forall l, In l growth ->
                 l = consistentGrowthLeak (first :: rest)
                 /\ (3 <= List.length (first :: rest))%nat
                 /\ Js.Qltb 1048576 (avgGrowth (first :: rest)) = true).
  { subst growth. intros l Hl.
    destruct (3 <=? List.length (first :: rest))%nat eqn:Hlen; [|exfalso; exact Hl].
    destruct (Js.Qltb 1048576 (avgGrowth (first :: rest))) eqn:Hfast;
      [|exfalso; exact Hl].
    destruct Hl as [<-|[]]. apply Nat.leb_le in Hlen. repeat split. exact Hlen. }
  assert (Ho : forall l, In l others -> MemoryLeak.type l <> "consistent-growth").
  { subst others. intros l Hl. apply in_app_or in Hl. destruct Hl as [Hl|Hl].
    - match type of Hl with
      | context [if ?c then _ else _] => destruct c
      end; [destruct Hl as [<-|[]]; discriminate|exfalso; exact Hl].
    - simpl in Hl. destruct Hl as [<-|[<-|[]]]; discriminate. }
  clearbody growth others. injection Hrun as <-.
  apply in_app_or in Hin. destruct Hin as [Hin|Hin]; [|exfalso; exact (Ho _ Hin Htype)].
  destruct (Hg _ Hin) as (-> & Hlen & Hfast). cbn [List.length] in Hlen.
  destruct (growthRates_sum first rest) as [Hsum Hcount].
  unfold consistentGrowthLeak. cbn [MemoryLeak.retainedSize].
  unfold avgGrowth in *. rewrite Hsum, Hcount in *.
  change (1048576%Q) with (inject_Z 1048576) in Hfast.
  apply Qltb_quotient in Hfast; [|lia].
  cbn [List.length]. apply floor_projection; [lia|exact Hfast].
Qed.

Lemma consistent_growth_projection_witness :
  exists leak rest,
    detectMemoryLeaks steadyGrowth = Js.Returns (leak :: rest)
    /\ MemoryLeak.type leak = "consistent-growth"
    /\ 6 * MiB + 1048576 <= MemoryLeak.retainedSize leak.
Proof.
  assert (Hrun : detectMemoryLeaks steadyGrowth
                 = Js.Returns
                     (consistentGrowthLeak steadyGrowth
                        :: largeIncreaseLeak (6 * MiB) :: fixedFindings))
    by (vm_compute; reflexivity).
  eexists. eexists. split; [exact Hrun|]. split; [reflexivity|].
  exact (consistent_growth_projection (snapshotAt (10 * MiB)) (tl steadyGrowth) _ _
           Hrun (or_introl eq_refl) eq_refl).
Defined.

Lemma sumBy_filter_bounds {A : Type} (f : A -> Z) (p : A -> bool) (l : list A) :
  Forall (fun a => 0 <= f a) l ->
  0 <= Js.sumBy f (filter p l) <= Js.sumBy f l.
Proof.
  induction 1 as [|a l Ha _ IH]; simpl.
  - unfold Js.sumBy. simpl. lia.
  - destruct (p a); rewrite ?sumBy_cons; lia.
Qed.

(** When no asset has a negative size, each of the four buckets lies
    between 0 and the total size of the bundle. *)
Theorem metrics_within_total (stats : Stats.t) :
  Forall (fun asset => 0 <= assetSize asset) (Stats.assets stats) ->
  let m := BundleAnalysis.metrics (analyzeWebpackStats stats) in
  let total := BundleAnalysis.totalSize (analyzeWebpackStats stats) in
  0 <= Metrics.jsSize m <= total
  /\ 0 <= Metrics.cssSize m <= total
  /\ 0 <= Metrics.imageSize m <= total
  /\ 0 <= Metrics.otherSize m <= total.
Proof.
  intros Hpos. cbv zeta. unfold analyzeWebpackStats. simpl.
  unfold calculateMetrics.
  destruct (addAsset_buckets (Stats.assets stats)
              {| Metrics.jsSize := 0; Metrics.cssSize := 0;
                 Metrics.imageSize := 0; Metrics.otherSize := 0 |})
    as (Hj & Hc & Hi & Ho).
  cbv zeta in *. simpl in Hj, Hc, Hi, Ho. rewrite Hj, Hc, Hi, Ho.
  unfold bucketSize. fold assetSize.
  change (fun asset : Stats.Asset => Js.orZero (Stats.asset_size asset)) with assetSize.
  repeat split; apply sumBy_filter_bounds; exact Hpos.
Qed.

Lemma metrics_within_total_witness :
  Forall (fun asset => 0 <= assetSize asset) (Stats.assets mockWebpackStats)
  /\ 0 <= Metrics.cssSize (BundleAnalysis.metrics (analyzeWebpackStats mockWebpackStats))
     <= BundleAnalysis.totalSize (analyzeWebpackStats mockWebpackStats).
Proof.
  assert (Hpos : Forall (fun asset => 0 <= assetSize asset) (Stats.assets mockWebpackStats))
    by (repeat constructor; vm_compute; discriminate).
  split; [exact Hpos|].
  exact (proj1 (proj2 (metrics_within_total mockWebpackStats Hpos))).
Defined.
